(** * mcp_feedback_collector: the feedback dialog and its three tools

    A shallow embedding of [src/mcp_feedback_collector/server.py].

    The program is a PySide6 dialog ([FeedbackDialog]) and three tool
    functions ([collect_feedback], [pick_image], [get_image_info]).  The
    windowing toolkit, the file system, the clipboard, the clock and the
    image library are outside the program: they appear here as the results
    that the code receives from them (an environment record, the payload of
    a user action), never as something the model decides. *)

From Stdlib Require Import ZArith NArith List Bool Lia String Ascii.
From Stdlib Require Import Strings.Byte.
From Stdlib Require Import DecimalString.
From stdpp Require Import base list.
Import ListNotations.

Local Open Scope N_scope.

(** ** Python values *)

(** A Python [str] is a sequence of Unicode code points. *)
Definition pystr := list N.

(** A Python [bytes] object. *)
Definition bytes := list byte.

(** Code points of an ASCII literal of the source. *)
Definition cps (s : string) : pystr :=
  List.map N_of_ascii (list_ascii_of_string s).

Definition pystr_eqb (a b : pystr) : bool :=
  bool_decide (a = b).

(** [str.isspace] on one code point: the characters that [str.strip()]
    removes when it is called without an argument. *)
Definition is_space (c : N) : bool :=
  ((9 <=? c) && (c <=? 13)) || ((28 <=? c) && (c <=? 32))
  || (c =? 133) || (c =? 160) || (c =? 5760)
  || ((8192 <=? c) && (c <=? 8202))
  || (c =? 8232) || (c =? 8233) || (c =? 8239) || (c =? 8287)
  || (c =? 12288).

Fixpoint lstrip (s : pystr) : pystr :=
  match s with
  | [] => []
  | c :: s' => if is_space c then lstrip s' else s
  end.

Definition rstrip (s : pystr) : pystr := rev (lstrip (rev s)).

(** [s.strip()] *)
Definition strip (s : pystr) : pystr := rstrip (lstrip s).

(** [str.lower] on one code point.  The labels it is applied to are the
    format identifiers of the image library, which are ASCII; on the ASCII
    range this is Python's mapping. *)
Definition lower_cp (c : N) : N :=
  if (65 <=? c) && (c <=? 90) then c + 32 else c.

Definition lower (s : pystr) : pystr := List.map lower_cp s.

Definition is_ascii_upper (c : N) : bool := (65 <=? c) && (c <=? 90).





(** ** Exceptions

    Only subclasses of [Exception] are modelled: those are what the
    handlers of the source catch.  [FileNotFoundError] is kept apart
    because [get_image_info] has a handler of its own for it; [TypeError]
    and [OverflowError] are the two that calls of the program itself end
    in; every other class is [OtherException]. *)
Inductive exn :=
| FileNotFoundError (msg : pystr)
| TypeError (msg : pystr)
| OverflowError (msg : pystr)
| OtherException (msg : pystr).

(** [str(e)] *)
Definition exn_str (e : exn) : pystr :=
  match e with
  | FileNotFoundError msg => msg
  | TypeError msg => msg
  | OverflowError msg => msg
  | OtherException msg => msg
  end.

Inductive res (A : Type) :=
| Ok (a : A)
| Raise (e : exn).
Arguments Ok {A} a.
Arguments Raise {A} e.

Definition bind {A B} (r : res A) (k : A -> res B) : res B :=
  match r with
  | Ok a => k a
  | Raise e => Raise e
  end.

Notation "'let!' x ':=' r 'in' k" := (bind r (fun x => k))
  (at level 10, x name, k at level 200).

(** ** base64

    [base64.b64encode(data).decode('utf-8')]: the standard alphabet with
    [=] padding, three bytes to four characters. *)
Definition b64_char (i : N) : N :=
  if i <? 26 then 65 + i
  else if i <? 52 then 97 + (i - 26)
  else if i <? 62 then 48 + (i - 52)
  else if i =? 62 then 43
  else 47.

Definition b64_pad : N := 61.

Fixpoint b64encode (data : bytes) : pystr :=
  match data with
  | [] => []
  | [a] =>
      let n := Byte.to_N a * 65536 in
      [b64_char (n / 262144); b64_char (n / 4096 mod 64); b64_pad; b64_pad]
  | [a; b] =>
      let n := Byte.to_N a * 65536 + Byte.to_N b * 256 in
      [b64_char (n / 262144); b64_char (n / 4096 mod 64);
       b64_char (n / 64 mod 64); b64_pad]
  | a :: b :: c :: rest =>
      let n := Byte.to_N a * 65536 + Byte.to_N b * 256 + Byte.to_N c in
      b64_char (n / 262144) :: b64_char (n / 4096 mod 64)
        :: b64_char (n / 64 mod 64) :: b64_char (n mod 64)
        :: b64encode rest
  end.

(** The decoder the round trip is measured against: strict RFC 4648,
    padding only in the last group. *)
Definition b64_index (c : N) : option N :=
  if (65 <=? c) && (c <=? 90) then Some (c - 65)
  else if (97 <=? c) && (c <=? 122) then Some (c - 97 + 26)
  else if (48 <=? c) && (c <=? 57) then Some (c - 48 + 52)
  else if c =? 43 then Some 62
  else if c =? 47 then Some 63
  else None.

Definition opt_cons {A} (o : option A) (r : option (list A)) : option (list A) :=
  match o, r with
  | Some x, Some l => Some (x :: l)
  | _, _ => None
  end.

Fixpoint b64decode (s : pystr) : option bytes :=
  match s with
  | [] => Some []
  | c0 :: c1 :: c2 :: c3 :: rest =>
      match b64_index c0, b64_index c1 with
      | Some i0, Some i1 =>
          if (c2 =? b64_pad) && (c3 =? b64_pad) then
            match rest with
            | [] =>
                let n := i0 * 262144 + i1 * 4096 in
                opt_cons (Byte.of_N (n / 65536)) (Some [])
            | _ :: _ => None
            end
          else
            match b64_index c2 with
            | Some i2 =>
                if c3 =? b64_pad then
                  match rest with
                  | [] =>
                      let n := i0 * 262144 + i1 * 4096 + i2 * 64 in
                      opt_cons (Byte.of_N (n / 65536))
                        (opt_cons (Byte.of_N (n / 256 mod 256)) (Some []))
                  | _ :: _ => None
                  end
                else
                  match b64_index c3 with
                  | Some i3 =>
                      let n := i0 * 262144 + i1 * 4096 + i2 * 64 + i3 in
                      opt_cons (Byte.of_N (n / 65536))
                        (opt_cons (Byte.of_N (n / 256 mod 256))
                           (opt_cons (Byte.of_N (n mod 256)) (b64decode rest)))
                  | None => None
                  end
            | None => None
            end
      | _, _ => None
      end
  | _ => None
  end.

(** ** Data model *)

(** The transport image record the tools mean to return, with the fields
    the docstring of [pick_image] lists.  Whether the call
    [MCPImage(base64_data=, format=, filename=)] makes one is up to the
    imported class: see [MCPImage_new] below. *)
Record MCPImage := {
  base64_data : pystr;
  format : pystr;
  filename : pystr }.

(** The dictionary that [submit_feedback_pyside] builds for one image. *)
Record ImageDict := {
  d_type : pystr;
  d_base64_data : pystr;
  d_format : pystr;
  d_filename : pystr }.

(** The values that travel through the [feedback_submitted] signal and out
    of the tools. *)
#[warnings="-register-all"]
Inductive pyval :=
| PyNone
| PyStr (s : pystr)
| PyDict (d : ImageDict)
| PyImage (m : MCPImage)
| PyList (l : list pyval).

(** [isinstance(v, str)] *)
Definition is_str (v : pyval) : bool :=
  match v with PyStr _ => true | _ => false end.

Record QPixmap := { isNull : bool }.

(** One entry of [selected_images_data]: the dictionary with the keys
    ["data"], ["filename"] and ["pixmap"]. *)
Record SelectedImage := {
  img_data : bytes;
  img_filename : pystr;
  img_pixmap : QPixmap }.

(** What [PIL.Image.open] gives back, as far as the code looks at it. *)
Record PilImage := {
  pil_format : option pystr;
  pil_size : Z * Z }.

(** The clipboard picture.  [save_PNG] is what the buffer holds after
    [qimage.save(byte_array, "PNG")]: the PNG bytes, or nothing when
    [save] fails.  [save] tells a failure by returning [False], which the
    code does not look at, and neither it nor [QBuffer.open],
    [byte_array.data()] and [QPixmap.fromImage] raises: the handler of the
    [try] around them is never entered and is not part of the model.
    [to_pixmap] is [QPixmap.fromImage(qimage)]. *)
Record QImage := {
  qimage_isNull : bool;
  save_PNG : bytes;
  to_pixmap : QPixmap }.

Record Clipboard := {
  hasImage : bool;
  image : QImage }.

(** [datetime.now()] *)
Record datetime := {
  year : N; month : N; day : N;
  hour : N; minute : N; second : N }.

(** The invariant of Python's [datetime], for the years that print with
    four digits. *)
Definition datetime_ok (t : datetime) : Prop :=
  1000 <= year t <= 9999 /\ 1 <= month t <= 12 /\ 1 <= day t <= 31 /\
  hour t < 24 /\ minute t < 60 /\ second t < 60.

Definition digit (n : N) : N := 48 + n mod 10.
Definition pad2 (n : N) : pystr := [digit (n / 10); digit n].
Definition pad4 (n : N) : pystr :=
  [digit (n / 1000); digit (n / 100); digit (n / 10); digit n].

(** [t.strftime("%Y%m%d_%H%M%S")] *)
Definition strftime (t : datetime) : pystr :=
  pad4 (year t) ++ pad2 (month t) ++ pad2 (day t) ++ cps "_"
    ++ pad2 (hour t) ++ pad2 (minute t) ++ pad2 (second t).

Definition is_digit (c : N) : bool := (48 <=? c) && (c <=? 57).

(** What the program gets from outside: the file system, [pathlib], the
    image library, the pixmap loader, and the class imported as
    [MCPImage]: [MCPImage_new b f n] is the call
    [MCPImage(base64_data=b, format=f, filename=n)]. *)
Record Env := {
  read_file : pystr -> res bytes;
  Path_name : pystr -> pystr;
  Image_open : bytes -> res PilImage;
  QPixmap_loadFromData : bytes -> QPixmap;
  MCPImage_new : pystr -> pystr -> pystr -> res MCPImage }.

(** Message boxes shown to the user, in the order they appear. *)
Inductive msgbox := Warning | Critical | Information | Question.

(** [detail]: the part of the text that is not fixed. *)
Record notice := {
  box : msgbox;
  detail : pystr }.

Inductive StandardButton := Yes | No.

(** The lifecycle of the dialog.  The code closes the dialog with
    [accept()] or [reject()]; which handler called [reject()] tells
    [Cancelled] from [TimedOut]. *)
Inductive lifecycle := Open | Submitted | Cancelled | TimedOut.

Inductive DialogCode := Rejected | Accepted.

Record FeedbackDialog := {
  work_summary : pystr;
  timeout_seconds : Z;
  selected_images_data : list SelectedImage;
  text_widget : pystr;
  timeout_timer : option Z;
  clock : Z;
  state : lifecycle;
  emitted : list pyval;
  notices : list notice }.

Definition with_images (l : list SelectedImage) (d : FeedbackDialog) :=
  {| work_summary := work_summary d; timeout_seconds := timeout_seconds d;
     selected_images_data := l; text_widget := text_widget d;
     timeout_timer := timeout_timer d; clock := clock d; state := state d;
     emitted := emitted d; notices := notices d |}.

Definition with_text (s : pystr) (d : FeedbackDialog) :=
  {| work_summary := work_summary d; timeout_seconds := timeout_seconds d;
     selected_images_data := selected_images_data d; text_widget := s;
     timeout_timer := timeout_timer d; clock := clock d; state := state d;
     emitted := emitted d; notices := notices d |}.

Definition with_clock (c : Z) (d : FeedbackDialog) :=
  {| work_summary := work_summary d; timeout_seconds := timeout_seconds d;
     selected_images_data := selected_images_data d;
     text_widget := text_widget d;
     timeout_timer := timeout_timer d; clock := c; state := state d;
     emitted := emitted d; notices := notices d |}.

Definition with_state (s : lifecycle) (d : FeedbackDialog) :=
  {| work_summary := work_summary d; timeout_seconds := timeout_seconds d;
     selected_images_data := selected_images_data d;
     text_widget := text_widget d;
     timeout_timer := timeout_timer d; clock := clock d; state := s;
     emitted := emitted d; notices := notices d |}.

(** [self.feedback_submitted.emit(v)] *)
Definition emit (v : pyval) (d : FeedbackDialog) :=
  {| work_summary := work_summary d; timeout_seconds := timeout_seconds d;
     selected_images_data := selected_images_data d;
     text_widget := text_widget d;
     timeout_timer := timeout_timer d; clock := clock d; state := state d;
     emitted := emitted d ++ [v]; notices := notices d |}.

(** A [QMessageBox] is shown. *)
Definition notify (b : msgbox) (s : pystr) (d : FeedbackDialog) :=
  {| work_summary := work_summary d; timeout_seconds := timeout_seconds d;
     selected_images_data := selected_images_data d;
     text_widget := text_widget d;
     timeout_timer := timeout_timer d; clock := clock d; state := state d;
     emitted := emitted d;
     notices := notices d ++ [{| box := b; detail := s |}] |}.

(** ** FeedbackDialog *)

(** The largest interval [QTimer.start(int)] takes, a C [int]. *)
Definition INT_MAX : Z := 2147483647.

(** The dialog that [__init__] leaves behind when it completes: the timer
    is made only for a positive timeout, with the interval in
    milliseconds. *)
Definition initial_dialog (work_summary : pystr) (timeout_seconds : Z)
  : FeedbackDialog :=
  {| work_summary := work_summary;
     timeout_seconds := timeout_seconds;
     selected_images_data := [];
     text_widget := [];
     timeout_timer :=
       if (0 <? timeout_seconds)%Z then Some (timeout_seconds * 1000)%Z
       else None;
     clock := 0%Z;
     state := Open;
     emitted := [];
     notices := [] |}.

(** [FeedbackDialog.__init__].  [self.timeout_timer.start(
    self.timeout_seconds * 1000)] hands the interval to a C [int]: when it
    does not fit, the binding raises [OverflowError] (without a message)
    and no dialog is made. *)
Definition FeedbackDialog_init (work_summary : pystr) (timeout_seconds : Z)
  : res FeedbackDialog :=
  if ((0 <? timeout_seconds) && (INT_MAX <? timeout_seconds * 1000))%Z
  then Raise (OverflowError [])
  else Ok (initial_dialog work_summary timeout_seconds).

(** [handle_timeout]: [emit(None)], then [reject()]. *)
Definition handle_timeout (d : FeedbackDialog) : FeedbackDialog :=
  with_state TimedOut (emit PyNone d).

(** The cancel button and the window's close box: [reject()]. *)
Definition reject (d : FeedbackDialog) : FeedbackDialog :=
  with_state Cancelled d.

(** One path of the loop of [select_image_file_pyside]. *)
Definition add_image_file (E : Env) (d : FeedbackDialog) (file_path : pystr)
  : FeedbackDialog :=
  match read_file E file_path with
  | Ok img_bytes =>
      let pixmap := QPixmap_loadFromData E img_bytes in
      if negb (isNull pixmap) then
        with_images
          (selected_images_data d ++
             [{| img_data := img_bytes;
                 img_filename := Path_name E file_path;
                 img_pixmap := pixmap |}]) d
      else notify Warning (Path_name E file_path) d
  | Raise e =>
      notify Critical (Path_name E file_path ++ cps ": " ++ exn_str e) d
  end.

(** [select_image_file_pyside], for the paths the file picker returned. *)
Definition select_image_file_pyside (E : Env) (file_paths : list pystr)
  (d : FeedbackDialog) : FeedbackDialog :=
  fold_left (add_image_file E) file_paths d.

(** [paste_from_clipboard_pyside], for the clipboard content and the time
    at which it runs. *)
Definition paste_from_clipboard_pyside (clipboard : Clipboard) (now : datetime)
  (d : FeedbackDialog) : FeedbackDialog :=
  if hasImage clipboard then
    let qimage := image clipboard in
    if negb (qimage_isNull qimage) then
      let img_bytes := save_PNG qimage in
      let pixmap := to_pixmap qimage in
      let timestamp := strftime now in
      let filename := cps "clipboard_image_" ++ timestamp ++ cps ".png" in
      with_images
        (selected_images_data d ++
           [{| img_data := img_bytes;
               img_filename := filename;
               img_pixmap := pixmap |}]) d
    else notify Information [] d
  else notify Information [] d.

(** [clear_all_images_pyside], for the answer the user gives if asked. *)
Definition clear_all_images_pyside (reply : StandardButton)
  (d : FeedbackDialog) : FeedbackDialog :=
  match selected_images_data d with
  | [] => d
  | _ :: _ =>
      let d' := notify Question [] d in
      match reply with
      | Yes => with_images [] d'
      | No => d'
      end
  end.

(** [remove_image_pyside]: [del self.selected_images_data[index]] under
    the guard [0 <= index < len(...)]. *)
Definition remove_image_pyside (index : Z) (d : FeedbackDialog)
  : FeedbackDialog :=
  if ((0 <=? index)%Z &&
      (index <? Z.of_nat (length (selected_images_data d)))%Z)%bool
  then with_images (delete (Z.to_nat index) (selected_images_data d)) d
  else d.

(** The hint of the text field, [self.text_widget.placeholderText()]. *)
Definition placeholderText : pystr :=
  [35831; 22312; 27492; 36755; 20837; 24744; 30340; 21453; 39304; 12289;
   24314; 35758; 25110; 38382; 39064; 46; 46; 46].

(** [pil_image.format or "PNG"] *)
Definition format_or_PNG (p : PilImage) : pystr :=
  match pil_format p with
  | Some (c :: f) => c :: f
  | Some [] | None => cps "PNG"
  end.

(** The body of the image loop of [submit_feedback_pyside]: the items
    one selected image contributes, none if the [try] fails. *)
Definition submit_image (E : Env) (img_dict : SelectedImage) : list pyval :=
  match Image_open E (img_data img_dict) with
  | Ok pil_image =>
      let img_format := format_or_PNG pil_image in
      let base64_data := b64encode (img_data img_dict) in
      [PyDict {| d_type := cps "image";
                 d_base64_data := base64_data;
                 d_format := lower img_format;
                 d_filename := img_filename img_dict |}]
  | Raise _ => []
  end.

(** The text item of [submit_feedback_pyside]. *)
Definition submit_text (d : FeedbackDialog) : list pyval :=
  let text_content := strip (text_widget d) in
  match text_content with
  | [] => []
  | _ :: _ =>
      if negb (pystr_eqb text_content placeholderText)
      then [PyStr text_content] else []
  end.

Definition feedback_items (E : Env) (d : FeedbackDialog) : list pyval :=
  submit_text d ++ flat_map (submit_image E) (selected_images_data d).

(** [submit_feedback_pyside]: emit the items, then [accept()]. *)
Definition submit_feedback_pyside (E : Env) (d : FeedbackDialog)
  : FeedbackDialog :=
  with_state Submitted (emit (PyList (feedback_items E d)) d).

(** ** The modal loop *)

(** What the user can do while the dialog is open; each action carries
    what the toolkit hands to the slot it triggers. *)
Inductive user_action :=
| EditText (content : pystr)
| SelectImageFiles (file_paths : list pystr)
| PasteFromClipboard (clipboard : Clipboard) (now : datetime)
| ClearAllImages (reply : StandardButton)
| RemoveImage (index : Z)
| Submit
| Cancel.

(** What the event loop delivers: a user action, or the passing of
    [ms] milliseconds as the timer counts them (Qt's default timer is
    coarse: its count may run a few percent off the wall clock). *)
Inductive event :=
| User (a : user_action)
| Elapse (ms : N).

Definition is_terminal (ev : event) : bool :=
  match ev with
  | User Submit | User Cancel => true
  | _ => false
  end.

Definition act (E : Env) (a : user_action) (d : FeedbackDialog)
  : FeedbackDialog :=
  match a with
  | EditText content => with_text content d
  | SelectImageFiles file_paths => select_image_file_pyside E file_paths d
  | PasteFromClipboard clipboard now =>
      paste_from_clipboard_pyside clipboard now d
  | ClearAllImages reply => clear_all_images_pyside reply d
  | RemoveImage index => remove_image_pyside index d
  | Submit => submit_feedback_pyside E d
  | Cancel => reject d
  end.

(** The single-shot timer fires once, when the time counted since the
    dialog was made reaches its interval. *)
Definition tick (ms : N) (d : FeedbackDialog) : FeedbackDialog :=
  let d' := with_clock (clock d + Z.of_N ms)%Z d in
  match timeout_timer d with
  | Some interval =>
      if ((clock d <? interval) && (interval <=? clock d'))%Z
      then handle_timeout d' else d'
  | None => d'
  end.

(** What one event does to the dialog: the slot of the action, or the
    timer. *)
Definition step (E : Env) (d : FeedbackDialog) (ev : event) : FeedbackDialog :=
  match ev with
  | User a => act E a d
  | Elapse ms => tick ms d
  end.

(** [self.exec_()], for the events that arrive: they are handled one after
    the other until one of them closes the dialog; then [exec_] returns,
    and what arrives later is not handled by this call. *)
Fixpoint exec_ (E : Env) (d : FeedbackDialog) (events : list event)
  : FeedbackDialog :=
  match events with
  | [] => d
  | ev :: events' =>
      let d' := step E d ev in
      match state d' with
      | Open => exec_ E d' events'
      | _ => d'
      end
  end.

Definition result_code (d : FeedbackDialog) : option DialogCode :=
  match state d with
  | Open => None
  | Submitted => Some Accepted
  | Cancelled | TimedOut => Some Rejected
  end.

(** How a call that shows the dialog ends: it blocks for as long as the
    dialog stays open, it returns, or it raises. *)
Inductive run (A : Type) :=
| Blocked
| Returns (a : A)
| Raises (e : exn).
Arguments Blocked {A}.
Arguments Returns {A} a.
Arguments Raises {A} e.

(** The slot [on_feedback_submitted], run on every emitted value. *)
Definition on_feedback_submitted (result : list pyval) (data : pyval)
  : list pyval :=
  match data with
  | PyNone => result
  | PyList l => result ++ l
  | _ => result ++ [data]
  end.

(** [show_dialog_pyside]: the collected list, or Python's [None]. *)
Definition show_dialog_pyside (E : Env) (d : FeedbackDialog)
  (events : list event) : run (option (list pyval)) :=
  let d' := exec_ E d events in
  match result_code d' with
  | None => Blocked
  | Some Accepted =>
      Returns (Some (fold_left on_feedback_submitted (emitted d') []))
  | Some Rejected => Returns None
  end.

(** ** The tools *)

(** One turn of the loop of [collect_feedback]: a string is kept; for an
    image dictionary the record is made inside a [try], and the item is
    dropped when the constructor raises; anything else is dropped. *)
Definition process_item (E : Env) (item : pyval) : list pyval :=
  match item with
  | PyStr s => [PyStr s]
  | PyDict dct =>
      if pystr_eqb (d_type dct) (cps "image") then
        match MCPImage_new E (d_base64_data dct) (d_format dct)
                (d_filename dct) with
        | Ok mcp_img => [PyImage mcp_img]
        | Raise _ => []
        end
      else []
  | _ => []
  end.

(** What [collect_feedback] returns for the value of
    [show_dialog_pyside]. *)
Definition process_feedback (E : Env) (feedback_data : option (list pyval))
  : pyval :=
  match feedback_data with
  | None => PyList []
  | Some [] => PyList []
  | Some items => PyList (flat_map (process_item E) items)
  end.

Definition collect_feedback (E : Env) (work_summary : pystr)
  (timeout_seconds : Z) (events : list event) : run pyval :=
  match FeedbackDialog_init work_summary timeout_seconds with
  | Raise e => Raises e
  | Ok dialog =>
      match show_dialog_pyside E dialog events with
      | Blocked => Blocked
      | Raises e => Raises e
      | Returns feedback_data => Returns (process_feedback E feedback_data)
      end
  end.

(** The buttons of the message box of [pick_image]. *)
Inductive Button := file_button | paste_button | cancel_button.

(** The end of [pick_image], from [if img_bytes:] on.  The record is made
    outside any [try]: what the constructor raises, [pick_image] raises. *)
Definition pick_image_finish (E : Env) (img_bytes : option bytes)
  (filename img_format : pystr) : res MCPImage :=
  match img_bytes with
  | Some (b :: data) =>
      MCPImage_new E (b64encode (b :: data)) (lower img_format) filename
  | Some [] | None =>
      MCPImage_new E [] [] (cps "no_image_selected_or_error")
  end.

(** [pick_image], for the button the user clicked ([None]: none of the
    three), the path the file picker returned (empty if dismissed), the
    clipboard and the time.  The clipboard branch has no failing call (see
    [QImage]), so its handler is not entered. *)
Definition pick_image (E : Env) (clicked : option Button) (file_path : pystr)
  (clipboard : Clipboard) (now : datetime) : res MCPImage :=
  match clicked with
  | Some file_button =>
      match file_path with
      | [] => pick_image_finish E None (cps "image") (cps "png")
      | _ :: _ =>
          let filename := Path_name E file_path in
          match (let! img_bytes := read_file E file_path in
                 let! pil_img := Image_open E img_bytes in
                 Ok (img_bytes, format_or_PNG pil_img)) with
          | Ok (img_bytes, img_format) =>
              pick_image_finish E (Some img_bytes) filename img_format
          | Raise _ => MCPImage_new E [] [] (cps "error_loading_file")
          end
      end
  | Some paste_button =>
      if hasImage clipboard then
        let qimage := image clipboard in
        if negb (qimage_isNull qimage) then
          let img_bytes := save_PNG qimage in
          let timestamp := strftime now in
          let filename :=
            cps "clipboard_image_" ++ timestamp ++ cps ".png" in
          pick_image_finish E (Some img_bytes) filename (cps "png")
        else pick_image_finish E None (cps "image") (cps "png")
      else pick_image_finish E None (cps "image") (cps "png")
  | Some cancel_button => MCPImage_new E [] [] (cps "cancelled_by_user")
  | None => pick_image_finish E None (cps "image") (cps "png")
  end.




(** ** The placement of the window and the preview *)

(** [center_dialog]: the position the dialog is moved to, for the size of
    the primary screen and of the dialog; [//] is floor division. *)
Definition center_dialog (screen_width screen_height width height : Z)
  : Z * Z :=
  ((screen_width - width) / 2, (screen_height - height) / 2)%Z.

(** The widgets of the preview area. *)
Inductive preview_widget :=
| placeholder_label
| item_widget (pixmap : QPixmap) (filename_label : pystr) (idx : Z).

(** [filename if len(filename) < 20 else filename[:17] + "..."] *)
Definition short_filename (filename : pystr) : pystr :=
  if (length filename <? 20)%nat then filename
  else take 17 filename ++ cps "...".

(** The loop of [update_image_preview_pyside] over
    [enumerate(self.selected_images_data)], from [index] on. *)
Fixpoint preview_items (E : Env) (index : Z) (l : list SelectedImage)
  : list preview_widget :=
  match l with
  | [] => []
  | img_data_dict :: l' =>
      item_widget (img_pixmap img_data_dict)
        (short_filename (Path_name E (img_filename img_data_dict))) index
        :: preview_items E (index + 1)%Z l'
  end.

(** [update_image_preview_pyside]: the layout is emptied and filled again;
    the remove button of an item calls [remove_image_pyside(idx)]. *)
Definition update_image_preview_pyside (E : Env) (d : FeedbackDialog)
  : list preview_widget :=
  match selected_images_data d with
  | [] => [placeholder_label]
  | _ :: _ => preview_items E 0%Z (selected_images_data d)
  end.

(** What a press on the remove button of a preview widget does. *)
Definition press_remove (w : preview_widget) (d : FeedbackDialog)
  : FeedbackDialog :=
  match w with
  | placeholder_label => d
  | item_widget _ _ idx => remove_image_pyside idx d
  end.

(** ** A small environment to run the model on

    Two files: a 10x20 PNG at [/tmp/shot.png] and a text file at
    [/tmp/notes.png]; a codec that knows the PNG signature; and the class
    the source imports as [MCPImage]. *)

(** [mcp.server.fastmcp.utilities.types.Image]: its [__init__] takes
    [path], [data] and [format], so the call
    [MCPImage(base64_data=, format=, filename=)] raises [TypeError]. *)
Definition fastmcp_Image (base64_data format filename : pystr)
  : res MCPImage :=
  Raise (TypeError
           (cps "Image.__init__() got an unexpected keyword argument 'base64_data'")).

Definition png_signature : bytes :=
  [x89; x50; x4e; x47; x0d; x0a; x1a; x0a].

Definition shot_bytes : bytes := png_signature ++ [x00; x01; x02; xff].

Definition notes_bytes : bytes := [x68; x69].

Fixpoint bytes_prefix (p b : bytes) : bool :=
  match p, b with
  | [], _ => true
  | x :: p', y :: b' => Byte.eqb x y && bytes_prefix p' b'
  | _ :: _, [] => false
  end.

Fixpoint last_component (acc s : pystr) : pystr :=
  match s with
  | [] => acc
  | c :: s' =>
      if c =? 47 then last_component [] s'
      else last_component (acc ++ [c]) s'
  end.

Definition demo_env : Env :=
  {| read_file := fun p =>
       if pystr_eqb p (cps "/tmp/shot.png") then Ok shot_bytes
       else if pystr_eqb p (cps "/tmp/notes.png") then Ok notes_bytes
       else Raise (FileNotFoundError (cps "No such file or directory"));
     Path_name := last_component [];
     Image_open := fun b =>
       if bytes_prefix png_signature b
       then Ok {| pil_format := Some (cps "PNG"); pil_size := (10, 20)%Z |}
       else Raise (OtherException (cps "cannot identify image file"));
     QPixmap_loadFromData := fun b =>
       {| isNull := negb (bytes_prefix png_signature b) |};
     MCPImage_new := fastmcp_Image |}.

(** A dialog with no text and no picture, timeout 300 seconds. *)
Definition demo_dialog : FeedbackDialog := initial_dialog [] 300.

Definition demo_now : datetime :=
  {| year := 2025; month := 3; day := 9;
     hour := 14; minute := 5; second := 59 |}.

Definition demo_clipboard : Clipboard :=
  {| hasImage := true;
     image := {| qimage_isNull := false; save_PNG := shot_bytes;
                 to_pixmap := {| isNull := false |} |} |}.

Definition empty_clipboard : Clipboard :=
  {| hasImage := false;
     image := {| qimage_isNull := true; save_PNG := [];
                 to_pixmap := {| isNull := true |} |} |}.

(** ** Notions used in the statements *)

(** The shape [YYYYMMDD_HHMMSS]. *)
Definition is_timestamp (ts : pystr) : bool :=
  match ts with
  | [y1; y2; y3; y4; m1; m2; d1; d2; u; h1; h2; n1; n2; s1; s2] =>
      forallb is_digit [y1; y2; y3; y4; m1; m2; d1; d2; h1; h2; n1; n2; s1; s2]
      && (u =? 95)
  | _ => false
  end.

(** The number a string of decimal digits denotes. *)
Definition digits_value (s : pystr) : N :=
  fold_left (fun acc c => 10 * acc + (c - 48)) s 0.

(** What the slots other than submit, cancel and the timer leave alone. *)
Definition same_frame (d d' : FeedbackDialog) : Prop :=
  state d' = state d /\ emitted d' = emitted d /\
  timeout_timer d' = timeout_timer d /\ clock d' = clock d /\
  timeout_seconds d' = timeout_seconds d.

(** Milliseconds that pass during a run of events. *)
Definition elapsed (events : list event) : Z :=
  fold_right (fun ev acc =>
                match ev with
                | Elapse ms => (Z.of_N ms + acc)%Z
                | User _ => acc
                end) 0%Z events.

(** No submit and no cancel among the events. *)
Definition no_terminal_action (events : list event) : Prop :=
  existsb is_terminal events = false.

(** What holds of a dialog while [exec_] runs and when it returns. *)
Definition loop_inv (E : Env) (d : FeedbackDialog) : Prop :=
  match state d with
  | Open | Cancelled => emitted d = []
  | Submitted => emitted d = [PyList (feedback_items E d)]
  | TimedOut => emitted d = [PyNone]
  end.

(** Whether the image library can open the stored bytes of an entry. *)
Definition decodes (E : Env) (img : SelectedImage) : bool :=
  match Image_open E (img_data img) with
  | Ok _ => true
  | Raise _ => false
  end.

(** The file names that mark a record as carrying no image. *)
Definition sentinel_tags : list pystr :=
  [cps "cancelled_by_user"; cps "no_image_selected_or_error";
   cps "error_loading_file"; cps "error_processing_clipboard"].

(** The text the user typed last, if the user typed at all. *)
Definition last_edit (events : list event) : pystr :=
  fold_left (fun acc ev =>
               match ev with
               | User (EditText content) => content
               | _ => acc
               end) events [].

(** The entry [select_image_file_pyside] adds for one path, if any. *)
Definition accepted (E : Env) (file_path : pystr) : list SelectedImage :=
  match read_file E file_path with
  | Ok img_bytes =>
      if isNull (QPixmap_loadFromData E img_bytes) then []
      else [{| img_data := img_bytes;
               img_filename := Path_name E file_path;
               img_pixmap := QPixmap_loadFromData E img_bytes |}]
  | Raise _ => []
  end.

(** The message box [select_image_file_pyside] shows for one path, if
    any. *)
Definition rejection (E : Env) (file_path : pystr) : list notice :=
  match read_file E file_path with
  | Ok img_bytes =>
      if isNull (QPixmap_loadFromData E img_bytes)
      then [{| box := Warning; detail := Path_name E file_path |}]
      else []
  | Raise e =>
      [{| box := Critical;
          detail := Path_name E file_path ++ cps ": " ++ exn_str e |}]
  end.

(** * Properties *)

(** ** base64 round trip *)

Ltac by_div_mod := zify; Z.to_euclidean_division_equations; lia.

Lemma list_ind3 {A} (P : list A -> Prop) :
  P [] -> (forall a, P [a]) -> (forall a b, P [a; b]) ->
  (forall a b c l, P l -> P (a :: b :: c :: l)) ->
  forall l, P l.
Proof.
  intros H0 H1 H2 H3.
  assert (H : forall l, P l /\ (forall a, P (a :: l)) /\
                        (forall a b, P (a :: b :: l))).
  { induction l as [|x l (Hl & Hl1 & Hl2)]; repeat split; auto. }
  intro l. apply H.
Qed.

Lemma b64_index_char (i : N) : i < 64 -> b64_index (b64_char i) = Some i.
Proof.
  intro Hi. unfold b64_char.
  destruct (N.ltb_spec i 26) as [H26|H26].
  { unfold b64_index.
    replace ((65 <=? 65 + i) && (65 + i <=? 90)) with true
      by (symmetry; apply andb_true_intro; split; apply N.leb_le; lia).
    f_equal. lia. }
  destruct (N.ltb_spec i 52) as [H52|H52].
  { unfold b64_index.
    replace ((65 <=? 97 + (i - 26)) && (97 + (i - 26) <=? 90)) with false
      by (symmetry; apply andb_false_intro2; apply N.leb_gt; lia).
    replace ((97 <=? 97 + (i - 26)) && (97 + (i - 26) <=? 122)) with true
      by (symmetry; apply andb_true_intro; split; apply N.leb_le; lia).
    f_equal. lia. }
  destruct (N.ltb_spec i 62) as [H62|H62].
  { unfold b64_index.
    replace ((65 <=? 48 + (i - 52)) && (48 + (i - 52) <=? 90)) with false
      by (symmetry; apply andb_false_intro1; apply N.leb_gt; lia).
    replace ((97 <=? 48 + (i - 52)) && (48 + (i - 52) <=? 122)) with false
      by (symmetry; apply andb_false_intro1; apply N.leb_gt; lia).
    replace ((48 <=? 48 + (i - 52)) && (48 + (i - 52) <=? 57)) with true
      by (symmetry; apply andb_true_intro; split; apply N.leb_le; lia).
    f_equal. lia. }
  destruct (N.eqb_spec i 62) as [E62|E62].
  { subst i. reflexivity. }
  { assert (i = 63) as -> by lia. reflexivity. }
Qed.

Lemma b64_char_not_pad (i : N) : (b64_char i =? b64_pad) = false.
Proof.
  unfold b64_char, b64_pad. apply N.eqb_neq.
  destruct (N.ltb_spec i 26); [lia|].
  destruct (N.ltb_spec i 52); [lia|].
  destruct (N.ltb_spec i 62); [lia|].
  destruct (N.eqb_spec i 62); lia.
Qed.

Lemma sextet_bounds (n : N) :
  n < 16777216 ->
  n / 262144 < 64 /\ n / 4096 mod 64 < 64 /\ n / 64 mod 64 < 64 /\
  n mod 64 < 64.
Proof. intro. repeat split; by_div_mod. Qed.

Lemma group3 (x y z : N) :
  x <= 255 -> y <= 255 -> z <= 255 ->
  let n := x * 65536 + y * 256 + z in
  let m := n / 262144 * 262144 + n / 4096 mod 64 * 4096
           + n / 64 mod 64 * 64 + n mod 64 in
  m / 65536 = x /\ m / 256 mod 256 = y /\ m mod 256 = z.
Proof.
  intros Hx Hy Hz n m.
  assert (m = n) as -> by (subst m; by_div_mod).
  subst n. repeat split; by_div_mod.
Qed.

Lemma group2 (x y : N) :
  x <= 255 -> y <= 255 ->
  let n := x * 65536 + y * 256 in
  let m := n / 262144 * 262144 + n / 4096 mod 64 * 4096
           + n / 64 mod 64 * 64 in
  m / 65536 = x /\ m / 256 mod 256 = y.
Proof.
  intros Hx Hy n m.
  assert (m = n) as -> by (subst m n; by_div_mod).
  subst n. split; by_div_mod.
Qed.

Lemma group1 (x : N) :
  x <= 255 ->
  let n := x * 65536 in
  let m := n / 262144 * 262144 + n / 4096 mod 64 * 4096 in
  m / 65536 = x.
Proof.
  intros Hx n m.
  assert (m = n) as -> by (subst m n; by_div_mod).
  subst n. by_div_mod.
Qed.

Lemma b64decode_b64encode (data : bytes) :
  b64decode (b64encode data) = Some data.
Proof.
  induction data as [|a|a b|a b c rest IH] using list_ind3.
  - reflexivity.
  - pose proof (Byte.to_N_bounded a) as Ha.
    cbn [b64encode b64decode].
    set (n := Byte.to_N a * 65536).
    destruct (sextet_bounds n) as (H0 & H1 & _); [subst n; lia|].
    rewrite !b64_index_char by assumption.
    rewrite N.eqb_refl. cbn [andb].
    pose proof (group1 (Byte.to_N a) Ha) as G. cbv zeta in G.
    fold n in G. rewrite G, Byte.of_to_N. reflexivity.
  - pose proof (Byte.to_N_bounded a) as Ha.
    pose proof (Byte.to_N_bounded b) as Hb.
    cbn [b64encode b64decode].
    set (n := Byte.to_N a * 65536 + Byte.to_N b * 256).
    destruct (sextet_bounds n) as (H0 & H1 & H2 & _); [subst n; lia|].
    rewrite !b64_index_char by assumption.
    rewrite b64_char_not_pad, N.eqb_refl. cbn [andb].
    destruct (group2 _ _ Ha Hb) as (G1 & G2). fold n in G1, G2.
    rewrite G1, G2, !Byte.of_to_N. reflexivity.
  - pose proof (Byte.to_N_bounded a) as Ha.
    pose proof (Byte.to_N_bounded b) as Hb.
    pose proof (Byte.to_N_bounded c) as Hc.
    cbn [b64encode b64decode].
    set (n := Byte.to_N a * 65536 + Byte.to_N b * 256 + Byte.to_N c).
    destruct (sextet_bounds n) as (H0 & H1 & H2 & H3); [subst n; lia|].
    rewrite !b64_index_char by assumption.
    rewrite !b64_char_not_pad. cbn [andb].
    destruct (group3 _ _ _ Ha Hb Hc) as (G1 & G2 & G3). fold n in G1, G2, G3.
    rewrite G1, G2, G3, !Byte.of_to_N, IH. reflexivity.
Qed.

Lemma b64encode_nonempty (data : bytes) :
  data <> [] -> b64encode data <> [].
Proof.
  destruct data as [|a [|b [|c rest]]]; [congruence|discriminate..].
Qed.

(** ** The image list *)

Lemma with_images_images (l : list SelectedImage) (d : FeedbackDialog) :
  selected_images_data (with_images l d) = l.
Proof. reflexivity. Qed.

(** An example dialog with three pictures, to run the operations on. *)
Lemma remove_image_example :
  let pic (n : byte) := {| img_data := [n]; img_filename := [];
                           img_pixmap := {| isNull := false |} |} in
  let d := with_images [pic x01; pic x02; pic x03]
             (initial_dialog [] 300) in
  selected_images_data (remove_image_pyside 1 d) = [pic x01; pic x03] /\
  remove_image_pyside 3 d = d /\ remove_image_pyside (-1) d = d.
Proof. repeat split. Qed.

(** C8: [remove_image_pyside] with an index in range deletes exactly the
    entry at that position: the list becomes the entries before it followed
    by the entries after it, one entry shorter, the others in their old
    order; with an index out of range (negative, or at least the length)
    the dialog is left as it was. *)
Theorem remove_image_pyside_spec (d : FeedbackDialog) (index : Z) :
  let l := selected_images_data d in
  let l' := selected_images_data (remove_image_pyside index d) in
  let i := Z.to_nat index in
  ((0 <= index < Z.of_nat (length l))%Z ->
     l' = take i l ++ drop (S i) l /\
     S (length l') = length l /\
     (forall j : nat, (j < i)%nat -> l' !! j = l !! j) /\
     (forall j : nat, (i <= j)%nat -> l' !! j = l !! S j)) /\
  (~ (0 <= index < Z.of_nat (length l))%Z ->
     remove_image_pyside index d = d).
Proof.
  intros l l' i. subst l'. unfold remove_image_pyside. fold l.
  split.
  - intros [Hlo Hhi].
    assert (Hguard : ((0 <=? index)%Z && (index <? Z.of_nat (length l))%Z)
                     = true).
    { apply andb_true_intro. split; [apply Z.leb_le|apply Z.ltb_lt]; lia. }
    rewrite Hguard, with_images_images. fold i.
    assert (Hi : (i < length l)%nat) by (subst i; lia).
    repeat split.
    + apply delete_take_drop.
    + rewrite length_delete by (apply lookup_lt_is_Some_2; exact Hi). lia.
    + intros j Hj. apply list_lookup_delete_lt. exact Hj.
    + intros j Hj. apply list_lookup_delete_ge. exact Hj.
  - intros Hout.
    destruct (Z.leb_spec 0 index) as [Hlo|Hlo]; [|reflexivity].
    destruct (Z.ltb_spec index (Z.of_nat (length l))) as [Hhi|Hhi];
      [|reflexivity].
    exfalso. apply Hout. lia.
Qed.

Lemma remove_image_pyside_spec_witness :
  let pic (n : byte) := {| img_data := [n]; img_filename := [];
                           img_pixmap := {| isNull := false |} |} in
  let d := with_images [pic x01; pic x02; pic x03]
             (initial_dialog [] 300) in
  S (length (selected_images_data (remove_image_pyside 1 d))) = 3%nat /\
  remove_image_pyside 7 d = d.
Proof.
  intros pic d.
  destruct (remove_image_pyside_spec d 1) as [Hin _].
  destruct (remove_image_pyside_spec d 7) as [_ Hout].
  split.
  - destruct Hin as (_ & Hlen & _); [simpl; lia|exact Hlen].
  - apply Hout. simpl. lia.
Defined.

(** C9: [clear_all_images_pyside] on a non-empty list asks the user (one
    question box is shown): on [Yes] the list becomes empty, on [No] it
    stays as it is; on an empty list nothing is asked and nothing
    changes. *)
Theorem clear_all_images_pyside_spec (d : FeedbackDialog) :
  (selected_images_data d <> [] ->
     (forall reply,
        notices (clear_all_images_pyside reply d)
        = notices d ++ [{| box := Question; detail := [] |}]) /\
     selected_images_data (clear_all_images_pyside Yes d) = [] /\
     selected_images_data (clear_all_images_pyside No d)
     = selected_images_data d) /\
  (selected_images_data d = [] ->
     forall reply, clear_all_images_pyside reply d = d).
Proof.
  unfold clear_all_images_pyside. split.
  - intros Hne. destruct (selected_images_data d) as [|x l] eqn:Hl;
      [congruence|].
    repeat split.
    + intros []; reflexivity.
    + simpl. exact Hl.
  - intros ->. reflexivity.
Qed.

Lemma clear_all_images_pyside_spec_witness :
  let pic := {| img_data := [x01]; img_filename := [];
                img_pixmap := {| isNull := false |} |} in
  let d := with_images [pic] (initial_dialog [] 300) in
  selected_images_data (clear_all_images_pyside Yes d) = [] /\
  clear_all_images_pyside Yes (initial_dialog [] 300)
  = initial_dialog [] 300.
Proof.
  intros pic d. split.
  - destruct (clear_all_images_pyside_spec d) as [Hne _].
    destruct Hne as (_ & Hyes & _); [discriminate|exact Hyes].
  - destruct (clear_all_images_pyside_spec (initial_dialog [] 300))
      as [_ Hempty].
    apply Hempty. reflexivity.
Defined.

(** ** The clipboard *)

Lemma is_digit_digit (n : N) : is_digit (digit n) = true.
Proof.
  unfold is_digit, digit. apply andb_true_intro.
  split; apply N.leb_le; by_div_mod.
Qed.

Lemma pad2_value (n : N) : n < 100 -> digits_value (pad2 n) = n.
Proof. intro. unfold digits_value, pad2, digit. simpl. by_div_mod. Qed.

Lemma pad4_value (n : N) : n < 10000 -> digits_value (pad4 n) = n.
Proof. intro. unfold digits_value, pad4, digit. simpl. by_div_mod. Qed.

Lemma strftime_shape (t : datetime) : is_timestamp (strftime t) = true.
Proof.
  unfold strftime, pad4, pad2, is_timestamp. simpl.
  rewrite !is_digit_digit. reflexivity.
Qed.

Lemma strftime_fields (t : datetime) :
  datetime_ok t ->
  digits_value (take 4 (strftime t)) = year t /\
  digits_value (take 2 (drop 4 (strftime t))) = month t /\
  digits_value (take 2 (drop 6 (strftime t))) = day t /\
  digits_value (take 2 (drop 9 (strftime t))) = hour t /\
  digits_value (take 2 (drop 11 (strftime t))) = minute t /\
  digits_value (take 2 (drop 13 (strftime t))) = second t.
Proof.
  intros (Hy & Hm & Hd & Hh & Hn & Hs).
  unfold strftime. cbn [pad4 pad2 app take drop cps].
  change (take 4 (pad4 (year t) ++ ?r)) with (pad4 (year t)).
  repeat split.
  - apply pad4_value. lia.
  - apply (pad2_value (month t)). lia.
  - apply (pad2_value (day t)). lia.
  - apply (pad2_value (hour t)). lia.
  - apply (pad2_value (minute t)). lia.
  - apply (pad2_value (second t)). lia.
Qed.

(** C10: when the clipboard holds a picture that is not null,
    [paste_from_clipboard_pyside] serialises it to PNG and appends exactly
    one entry at the end of the list, holding the bytes of the buffer and
    the file name [clipboard_image_<YYYYMMDD_HHMMSS>.png] made from the
    time of the call, and shows no message box; when the clipboard holds
    no picture, or a null one, the list is unchanged and a message box is
    shown. *)
Theorem paste_from_clipboard_pyside_spec (clipboard : Clipboard)
  (now : datetime) (d : FeedbackDialog) :
  let d' := paste_from_clipboard_pyside clipboard now d in
  (hasImage clipboard = true ->
   qimage_isNull (image clipboard) = false ->
     exists ts,
       selected_images_data d'
       = selected_images_data d ++
           [{| img_data := save_PNG (image clipboard);
               img_filename := cps "clipboard_image_" ++ ts ++ cps ".png";
               img_pixmap := to_pixmap (image clipboard) |}] /\
       ts = strftime now /\ is_timestamp ts = true /\
       (datetime_ok now ->
          digits_value (take 4 ts) = year now /\
          digits_value (take 2 (drop 4 ts)) = month now /\
          digits_value (take 2 (drop 6 ts)) = day now /\
          digits_value (take 2 (drop 9 ts)) = hour now /\
          digits_value (take 2 (drop 11 ts)) = minute now /\
          digits_value (take 2 (drop 13 ts)) = second now) /\
       notices d' = notices d) /\
  (hasImage clipboard = false \/ qimage_isNull (image clipboard) = true ->
     selected_images_data d' = selected_images_data d /\
     exists n, notices d' = notices d ++ [n]).
Proof.
  intro d'. subst d'. unfold paste_from_clipboard_pyside. split.
  - intros -> ->. cbn [negb].
    exists (strftime now).
    split; [reflexivity|]. split; [reflexivity|].
    split; [apply strftime_shape|].
    split; [apply strftime_fields|reflexivity].
  - intros H.
    destruct (hasImage clipboard); [|split; [reflexivity|eexists; reflexivity]].
    destruct (qimage_isNull (image clipboard)); cbn [negb];
      [split; [reflexivity|eexists; reflexivity]|].
    destruct H as [H|H]; discriminate.
Qed.

Lemma paste_from_clipboard_pyside_spec_witness :
  (exists ts,
     selected_images_data
       (paste_from_clipboard_pyside demo_clipboard demo_now demo_dialog)
     = selected_images_data demo_dialog ++
         [{| img_data := shot_bytes;
             img_filename := cps "clipboard_image_" ++ ts ++ cps ".png";
             img_pixmap := {| isNull := false |} |}] /\
     ts = strftime demo_now /\ is_timestamp ts = true) /\
  selected_images_data
    (paste_from_clipboard_pyside empty_clipboard demo_now demo_dialog)
  = selected_images_data demo_dialog.
Proof.
  split.
  - destruct (paste_from_clipboard_pyside_spec demo_clipboard demo_now
                demo_dialog) as [Hok _].
    destruct Hok as (ts & Hl & Hts & Hshape & _); [reflexivity..|].
    exists ts. split; [exact Hl|]. split; [exact Hts|exact Hshape].
  - destruct (paste_from_clipboard_pyside_spec empty_clipboard demo_now
                demo_dialog) as [_ Hno].
    apply Hno. left. reflexivity.
Defined.

(** ** The modal loop *)

Lemma exec_cons (E : Env) (d : FeedbackDialog) (ev : event)
  (events : list event) :
  exec_ E d (ev :: events)
  = match state (step E d ev) with
    | Open => exec_ E (step E d ev) events
    | _ => step E d ev
    end.
Proof. reflexivity. Qed.

Lemma exec_app_open (E : Env) (evs1 evs2 : list event) :
  forall d : FeedbackDialog,
    state (exec_ E d evs1) = Open ->
    exec_ E d (evs1 ++ evs2) = exec_ E (exec_ E d evs1) evs2.
Proof.
  induction evs1 as [|ev evs1 IH]; intros d H; [reflexivity|].
  cbn [app]. rewrite !exec_cons in *.
  destruct (state (step E d ev)) eqn:Hs; [apply IH; exact H|congruence..].
Qed.

Lemma exec_app_closed (E : Env) (evs1 evs2 : list event) :
  forall d : FeedbackDialog,
    state d = Open ->
    state (exec_ E d evs1) <> Open ->
    exec_ E d (evs1 ++ evs2) = exec_ E d evs1.
Proof.
  induction evs1 as [|ev evs1 IH]; intros d Hd H; [cbn in H; congruence|].
  cbn [app]. rewrite !exec_cons in *.
  destruct (state (step E d ev)) eqn:Hs; [apply IH; assumption|reflexivity..].
Qed.

Lemma same_frame_refl (d : FeedbackDialog) : same_frame d d.
Proof. repeat split. Qed.

Lemma same_frame_trans (d1 d2 d3 : FeedbackDialog) :
  same_frame d1 d2 -> same_frame d2 d3 -> same_frame d1 d3.
Proof.
  intros (A1 & A2 & A3 & A4 & A5) (B1 & B2 & B3 & B4 & B5).
  repeat split; congruence.
Qed.

Lemma add_image_file_frame (E : Env) (d : FeedbackDialog) (p : pystr) :
  same_frame d (add_image_file E d p).
Proof.
  unfold add_image_file.
  destruct (read_file E p); [|repeat split].
  destruct (negb _); repeat split.
Qed.

Lemma select_image_file_pyside_frame (E : Env) (paths : list pystr)
  (d : FeedbackDialog) :
  same_frame d (select_image_file_pyside E paths d).
Proof.
  unfold select_image_file_pyside. revert d.
  induction paths as [|p paths IH]; intro d; [apply same_frame_refl|].
  simpl. eapply same_frame_trans; [apply add_image_file_frame|apply IH].
Qed.

Lemma act_frame (E : Env) (a : user_action) (d : FeedbackDialog) :
  a <> Submit -> a <> Cancel -> same_frame d (act E a d).
Proof.
  intros Hs Hc. destruct a; try congruence; cbn [act].
  - repeat split.
  - apply select_image_file_pyside_frame.
  - unfold paste_from_clipboard_pyside.
    destruct (hasImage clipboard); [|repeat split].
    destruct (negb _); repeat split.
  - unfold clear_all_images_pyside.
    destruct (selected_images_data d); [repeat split|].
    destruct reply; repeat split.
  - unfold remove_image_pyside. destruct (_ && _)%bool; repeat split.
Qed.

Lemma user_action_eq_dec_cases (a : user_action) :
  {a = Submit} + {a = Cancel} + {a <> Submit /\ a <> Cancel}.
Proof.
  destruct a; try (right; split; discriminate).
  - left. left. reflexivity.
  - left. right. reflexivity.
Qed.

Lemma step_timer (E : Env) (d : FeedbackDialog) (ev : event) :
  timeout_timer (step E d ev) = timeout_timer d.
Proof.
  destruct ev as [a|ms]; cbn [step].
  - destruct (user_action_eq_dec_cases a) as [[->| ->]|[Hs Hc]];
      [reflexivity..|].
    apply (act_frame E a d Hs Hc).
  - unfold tick. destruct (timeout_timer d) eqn:Ht;
      [destruct (_ && _)%bool|]; cbn; exact Ht.
Qed.

Lemma loop_inv_step (E : Env) (d : FeedbackDialog) (ev : event) :
  state d = Open -> emitted d = [] -> loop_inv E (step E d ev).
Proof.
  intros Hst Hem. destruct ev as [a|ms]; cbn [step].
  - destruct (user_action_eq_dec_cases a) as [[->| ->]|[Hs Hc]].
    + unfold loop_inv. cbn. rewrite Hem. reflexivity.
    + unfold loop_inv. cbn. exact Hem.
    + destruct (act_frame E a d Hs Hc) as (F1 & F2 & _).
      unfold loop_inv. rewrite F1, Hst, F2. exact Hem.
  - unfold tick. destruct (timeout_timer d);
      [destruct (_ && _)%bool|]; unfold loop_inv; cbn;
      rewrite ?Hst, ?Hem; reflexivity.
Qed.

Lemma loop_inv_exec (E : Env) (events : list event) :
  forall d : FeedbackDialog,
    state d = Open -> emitted d = [] -> loop_inv E (exec_ E d events).
Proof.
  induction events as [|ev events IH]; intros d Hst Hem.
  - unfold loop_inv. cbn. rewrite Hst. exact Hem.
  - rewrite exec_cons. pose proof (loop_inv_step E d ev Hst Hem) as Hinv.
    destruct (state (step E d ev)) eqn:Hs; [|exact Hinv..].
    apply IH; [exact Hs|]. unfold loop_inv in Hinv. rewrite Hs in Hinv.
    exact Hinv.
Qed.

(** A submit or a cancel closes an open dialog: the blocking call
    returns. *)
Lemma terminal_action_closes (E : Env) (events : list event) :
  forall d : FeedbackDialog,
    state d = Open ->
    In (User Submit) events \/ In (User Cancel) events ->
    state (exec_ E d events) <> Open.
Proof.
  induction events as [|ev events IH]; intros d Hst H.
  { destruct H as [[]|[]]. }
  rewrite exec_cons.
  destruct (state (step E d ev)) eqn:Hs; [|congruence..].
  apply IH; [exact Hs|].
  destruct H as [[H|H]|[H|H]].
  - subst ev. cbn in Hs. discriminate.
  - left. exact H.
  - subst ev. cbn in Hs. discriminate.
  - right. exact H.
Qed.

Lemma timer_fires (E : Env) (interval : Z) (events : list event) :
  forall d : FeedbackDialog,
    state d = Open ->
    timeout_timer d = Some interval ->
    no_terminal_action events ->
    (clock d < interval <= clock d + elapsed events)%Z ->
    state (exec_ E d events) = TimedOut.
Proof.
  induction events as [|ev events IH]; intros d Hst Ht Hnt Hclk.
  { simpl in Hclk. lia. }
  unfold no_terminal_action in Hnt. simpl in Hnt.
  apply orb_false_elim in Hnt. destruct Hnt as [Hev Hnt].
  rewrite exec_cons. destruct ev as [a|ms]; cbn [step].
  - assert (Hs : a <> Submit) by (intros ->; discriminate).
    assert (Hc : a <> Cancel) by (intros ->; discriminate).
    destruct (act_frame E a d Hs Hc) as (F1 & _ & F3 & F4 & _).
    rewrite F1, Hst. apply IH.
    + congruence.
    + congruence.
    + exact Hnt.
    + rewrite F4. simpl in Hclk. exact Hclk.
  - unfold tick. rewrite Ht. simpl in Hclk. cbn [clock with_clock].
    destruct (Z.ltb_spec (clock d) interval) as [Hlt|Hge]; [|lia].
    destruct (Z.leb_spec interval (clock d + Z.of_N ms)) as [Hfire|Hwait];
      cbn [andb].
    + reflexivity.
    + cbn. rewrite Hst. apply IH; cbn; try assumption. lia.
Qed.

Lemma no_timer_no_timeout (E : Env) (events : list event) :
  forall d : FeedbackDialog,
    timeout_timer d = None -> state d <> TimedOut ->
    state (exec_ E d events) <> TimedOut.
Proof.
  induction events as [|ev events IH]; intros d Ht Hst; [exact Hst|].
  rewrite exec_cons.
  assert (Hstep : state (step E d ev) <> TimedOut).
  { destruct ev as [a|ms]; cbn [step].
    - destruct (user_action_eq_dec_cases a) as [[->| ->]|[Hs Hc]];
        [cbn; congruence..|].
      destruct (act_frame E a d Hs Hc) as (F1 & _). congruence.
    - unfold tick. rewrite Ht. cbn. exact Hst. }
  destruct (state (step E d ev)) eqn:Hs; try congruence.
  apply IH; [rewrite step_timer; exact Ht|congruence].
Qed.

Lemma FeedbackDialog_init_cases (ws : pystr) (T : Z) :
  ((T <= 2147483)%Z -> FeedbackDialog_init ws T = Ok (initial_dialog ws T)) /\
  ((2147483 < T)%Z -> FeedbackDialog_init ws T = Raise (OverflowError [])).
Proof.
  unfold FeedbackDialog_init, INT_MAX.
  split; intro H;
    destruct (Z.ltb_spec 0 T); destruct (Z.ltb_spec 2147483647 (T * 1000));
    cbn [andb]; try reflexivity; lia.
Qed.

Lemma FeedbackDialog_init_ok (ws : pystr) (T : Z) (d0 : FeedbackDialog) :
  FeedbackDialog_init ws T = Ok d0 ->
  d0 = initial_dialog ws T /\ (T <= 2147483)%Z.
Proof.
  intro H. destruct (FeedbackDialog_init_cases ws T) as [Hok Hover].
  destruct (Z.le_gt_cases T 2147483) as [Hle|Hgt].
  - rewrite (Hok Hle) in H. injection H as <-. split; [reflexivity|exact Hle].
  - rewrite (Hover Hgt) in H. discriminate.
Qed.

Lemma collect_feedback_rejected (E : Env) (ws : pystr) (T : Z)
  (d0 : FeedbackDialog) (events : list event) :
  FeedbackDialog_init ws T = Ok d0 ->
  state (exec_ E d0 events) = Cancelled \/
  state (exec_ E d0 events) = TimedOut ->
  collect_feedback E ws T events = Returns (PyList []).
Proof.
  intros Hd0 H. unfold collect_feedback. rewrite Hd0.
  unfold show_dialog_pyside, result_code.
  destruct H as [-> | ->]; reflexivity.
Qed.

(** C3: a dialog made with [timeout_seconds <= 0] has no timer and never
    becomes [TimedOut], whatever events and however much time it sees; a
    dialog made with [timeout_seconds = T > 0] (the constructor completes
    for [T] up to 2147483; beyond that [QTimer.start] raises and there is
    no dialog) has a timer of [T * 1000] milliseconds, and when it sees no
    submit and no cancel while [T] seconds pass it is [TimedOut] and
    [collect_feedback] returns the empty list. *)
Theorem timeout_spec (E : Env) (ws : pystr) (T : Z) :
  ((T <= 0)%Z ->
     exists d0,
       FeedbackDialog_init ws T = Ok d0 /\
       timeout_timer d0 = None /\
       forall events, state (exec_ E d0 events) <> TimedOut) /\
  ((0 < T)%Z ->
     ((T <= 2147483)%Z -> exists d0, FeedbackDialog_init ws T = Ok d0) /\
     forall d0,
       FeedbackDialog_init ws T = Ok d0 ->
       timeout_timer d0 = Some (T * 1000)%Z /\
       forall events later,
         no_terminal_action events ->
         (T * 1000 <= elapsed events)%Z ->
         state (exec_ E d0 (events ++ later)) = TimedOut /\
         collect_feedback E ws T (events ++ later) = Returns (PyList [])).
Proof.
  destruct (FeedbackDialog_init_cases ws T) as [Hok _].
  split.
  - intro HT. exists (initial_dialog ws T).
    assert (Hnone : timeout_timer (initial_dialog ws T) = None).
    { cbn. destruct (Z.ltb_spec 0 T); [lia|reflexivity]. }
    split; [apply Hok; lia|]. split; [exact Hnone|].
    intro events. apply no_timer_no_timeout; [exact Hnone|discriminate].
  - intro HT. split; [intro Hle; eauto|].
    intros d0 Hd0.
    destruct (FeedbackDialog_init_ok ws T d0 Hd0) as [Heq _].
    assert (Hsome : timeout_timer d0 = Some (T * 1000)%Z).
    { subst d0. cbn. destruct (Z.ltb_spec 0 T); [reflexivity|lia]. }
    split; [exact Hsome|].
    intros events later Hnt Hel.
    assert (Hopen : state d0 = Open) by (subst d0; reflexivity).
    assert (H : state (exec_ E d0 events) = TimedOut).
    { apply (timer_fires E (T * 1000)%Z); try assumption.
      subst d0. cbn. lia. }
    assert (Hfired : state (exec_ E d0 (events ++ later)) = TimedOut).
    { rewrite exec_app_closed; [exact H|exact Hopen|congruence]. }
    split; [exact Hfired|].
    apply (collect_feedback_rejected E ws T d0); [exact Hd0|].
    right. exact Hfired.
Qed.

Lemma timeout_spec_witness :
  (exists d0,
     FeedbackDialog_init [] 0 = Ok d0 /\
     state (exec_ demo_env d0
              [Elapse 999999; User (EditText (cps "x")); Elapse 1])
     <> TimedOut) /\
  collect_feedback demo_env [] 3
    ([User (EditText (cps "hi")); Elapse 2999; Elapse 1] ++ [User Submit])
  = Returns (PyList []).
Proof.
  split.
  - destruct (timeout_spec demo_env [] 0) as [Hoff _].
    destruct Hoff as (d0 & Hd0 & _ & Hnever); [lia|].
    exists d0. split; [exact Hd0|apply Hnever].
  - destruct (timeout_spec demo_env [] 3) as [_ Hon].
    destruct Hon as [_ Hfires]; [lia|].
    destruct (Hfires (initial_dialog [] 3) eq_refl) as [_ Hrun].
    apply Hrun; [reflexivity|simpl; lia].
Defined.

(** ** Submission *)

Lemma process_feedback_items (E : Env) (items : list pyval) :
  process_feedback E (Some items) = PyList (flat_map (process_item E) items).
Proof. destruct items; reflexivity. Qed.

Lemma collect_feedback_submitted (E : Env) (ws : pystr) (T : Z)
  (d0 : FeedbackDialog) (events : list event) :
  FeedbackDialog_init ws T = Ok d0 ->
  let d := exec_ E d0 events in
  state d = Submitted ->
  collect_feedback E ws T events
  = Returns (PyList (flat_map (process_item E) (feedback_items E d))).
Proof.
  intros Hd0 d Hst.
  destruct (FeedbackDialog_init_ok ws T d0 Hd0) as [Heq _].
  assert (Hinv : loop_inv E d).
  { apply loop_inv_exec; subst d0; reflexivity. }
  unfold loop_inv in Hinv. rewrite Hst in Hinv.
  unfold collect_feedback. rewrite Hd0.
  unfold show_dialog_pyside, result_code. fold d.
  rewrite Hst, Hinv. cbn [fold_left on_feedback_submitted app].
  rewrite process_feedback_items. reflexivity.
Qed.

Lemma exec_submit (E : Env) (events : list event) (d : FeedbackDialog) :
  state (exec_ E d events) = Open ->
  exec_ E d (events ++ [User Submit])
  = submit_feedback_pyside E (exec_ E d events).
Proof.
  intro Hst. rewrite exec_app_open by exact Hst. reflexivity.
Qed.

Lemma feedback_items_submit (E : Env) (d : FeedbackDialog) :
  feedback_items E (submit_feedback_pyside E d) = feedback_items E d.
Proof. reflexivity. Qed.

Lemma submit_image_no_str (E : Env) (l : list SelectedImage) :
  List.filter is_str (flat_map (submit_image E) l) = [].
Proof.
  induction l as [|img l IH]; [reflexivity|].
  cbn [flat_map]. rewrite List.filter_app, IH, app_nil_r.
  unfold submit_image. destruct (Image_open E (img_data img)); reflexivity.
Qed.

Lemma process_images_no_str (E : Env) (l : list SelectedImage) :
  List.filter is_str
    (flat_map (process_item E) (flat_map (submit_image E) l)) = [].
Proof.
  induction l as [|img l IH]; [reflexivity|].
  cbn [flat_map]. rewrite flat_map_app, List.filter_app, IH, app_nil_r.
  unfold submit_image.
  destruct (Image_open E (img_data img)); [|reflexivity].
  cbn. destruct (MCPImage_new E _ _ _); reflexivity.
Qed.

Lemma submit_text_cases (d : FeedbackDialog) :
  let t := strip (text_widget d) in
  (t <> [] -> t <> placeholderText -> submit_text d = [PyStr t]) /\
  (t = [] \/ t = placeholderText -> submit_text d = []).
Proof.
  intro t. unfold submit_text. fold t. split.
  - intros Hne Hph. destruct t as [|c t']; [congruence|].
    unfold pystr_eqb. rewrite bool_decide_eq_false_2 by exact Hph.
    reflexivity.
  - intros [-> | Hph]; [reflexivity|].
    rewrite Hph. reflexivity.
Qed.

(** C2: when the stripped text of the text field is neither empty nor the
    placeholder hint, the list that [submit_feedback_pyside] emits starts
    with that stripped text, followed by the image items, and it holds no
    other text item; [collect_feedback] then returns a list that starts
    with it as well.  When the stripped text is empty or equals the
    placeholder, the emitted list holds no text item. *)
Theorem submit_text_item (E : Env) (d : FeedbackDialog) :
  let t := strip (text_widget d) in
  let items := feedback_items E d in
  let images := flat_map (submit_image E) (selected_images_data d) in
  emitted (submit_feedback_pyside E d) = emitted d ++ [PyList items] /\
  List.filter is_str images = [] /\
  (t <> [] -> t <> placeholderText ->
     items = PyStr t :: images /\
     List.filter is_str items = [PyStr t] /\
     forall ws T d0 events,
       FeedbackDialog_init ws T = Ok d0 ->
       exec_ E d0 events = d -> state d = Open ->
       exists rest,
         collect_feedback E ws T (events ++ [User Submit])
         = Returns (PyList (PyStr t :: rest)) /\
         List.filter is_str rest = []) /\
  (t = [] \/ t = placeholderText ->
     items = images /\ List.filter is_str items = []).
Proof.
  intros t items images.
  destruct (submit_text_cases d) as [Hsome Hnone]. fold t in Hsome, Hnone.
  assert (Himg : List.filter is_str images = [])
    by apply submit_image_no_str.
  split; [reflexivity|]. split; [exact Himg|]. split.
  - intros Hne Hph.
    assert (Hitems : items = PyStr t :: images).
    { subst items. unfold feedback_items. rewrite Hsome by assumption.
      reflexivity. }
    split; [exact Hitems|]. split.
    + rewrite Hitems. cbn [List.filter is_str]. rewrite Himg. reflexivity.
    + intros ws T d0 events Hd0 Hd Hopen.
      exists (flat_map (process_item E) images). split.
      * rewrite (collect_feedback_submitted E ws T d0) by
          (try exact Hd0;
           rewrite exec_submit by (rewrite Hd; exact Hopen); reflexivity).
        rewrite exec_submit by (rewrite Hd; exact Hopen).
        rewrite Hd, feedback_items_submit. fold items.
        rewrite Hitems. reflexivity.
      * apply process_images_no_str.
  - intro H.
    assert (Hitems : items = images).
    { subst items. unfold feedback_items. rewrite Hnone by exact H.
      reflexivity. }
    split; [exact Hitems|]. rewrite Hitems. exact Himg.
Qed.

Lemma submit_text_item_witness :
  let events := [User (EditText (cps "  looks good "));
                 User (SelectImageFiles [cps "/tmp/shot.png"])] in
  let d := exec_ demo_env (initial_dialog [] 300) events in
  (exists rest,
     collect_feedback demo_env [] 300 (events ++ [User Submit])
     = Returns (PyList (PyStr (cps "looks good") :: rest)) /\
     List.filter is_str rest = []) /\
  List.filter is_str
    (feedback_items demo_env
       (with_text placeholderText (initial_dialog [] 300))) = [].
Proof.
  intros events d. split.
  - destruct (submit_text_item demo_env d) as (_ & _ & Hsome & _).
    destruct Hsome as (_ & _ & Htool); [discriminate|discriminate|].
    apply (Htool [] 300%Z (initial_dialog [] 300) events); reflexivity.
  - destruct (submit_text_item demo_env
                (with_text placeholderText (initial_dialog [] 300)))
      as (_ & _ & _ & Hnone).
    apply Hnone. right. reflexivity.
Defined.

(** A timeout of 2147484 seconds: its milliseconds do not fit the
    interval of the timer, the constructor of the dialog raises, and
    [collect_feedback] returns nothing at all. *)
Lemma collect_feedback_overflow_counterexample :
  collect_feedback demo_env [] 2147484 [User Cancel]
  = Raises (OverflowError []) /\
  ~ (exists l,
       collect_feedback demo_env [] 2147484 [User Cancel]
       = Returns (PyList l)).
Proof.
  split; [reflexivity|]. intros [l H]. discriminate H.
Qed.

(** C1 (amended): for a timeout of at most 2147483 seconds the dialog is
    made, and once it is closed [collect_feedback] returns a list and
    never [None]; the list is empty when the dialog was cancelled, when it
    timed out, and when it was submitted with no text (after stripping)
    and no selected image.  A submit or a cancel among the events closes
    the dialog, so the call does return.  For a larger timeout the call
    raises [OverflowError] when the timer is started. *)
Theorem collect_feedback_returns_list (E : Env) (ws : pystr) (T : Z)
  (events : list event) :
  collect_feedback E ws T events <> Returns PyNone /\
  ((2147483 < T)%Z ->
     collect_feedback E ws T events = Raises (OverflowError [])) /\
  ((T <= 2147483)%Z ->
     exists d0,
       FeedbackDialog_init ws T = Ok d0 /\
       let d := exec_ E d0 events in
       (In (User Submit) events \/ In (User Cancel) events ->
          state d <> Open) /\
       (state d <> Open ->
          exists l, collect_feedback E ws T events = Returns (PyList l)) /\
       (state d = Cancelled \/ state d = TimedOut ->
          collect_feedback E ws T events = Returns (PyList [])) /\
       (state d = Submitted ->
          strip (text_widget d) = [] -> selected_images_data d = [] ->
          collect_feedback E ws T events = Returns (PyList []))).
Proof.
  destruct (FeedbackDialog_init_cases ws T) as [Hok Hover].
  assert (Hbig : (2147483 < T)%Z ->
                 collect_feedback E ws T events = Raises (OverflowError [])).
  { intro H. unfold collect_feedback. rewrite (Hover H). reflexivity. }
  assert (Hsmall :
            (T <= 2147483)%Z ->
            exists d0,
              FeedbackDialog_init ws T = Ok d0 /\
              let d := exec_ E d0 events in
              (In (User Submit) events \/ In (User Cancel) events ->
                 state d <> Open) /\
              (state d <> Open ->
                 exists l, collect_feedback E ws T events = Returns (PyList l)) /\
              (state d = Cancelled \/ state d = TimedOut ->
                 collect_feedback E ws T events = Returns (PyList [])) /\
              (state d = Submitted ->
                 strip (text_widget d) = [] -> selected_images_data d = [] ->
                 collect_feedback E ws T events = Returns (PyList []))).
  { intro Hle. exists (initial_dialog ws T).
    pose proof (Hok Hle) as Hd0. split; [exact Hd0|]. intro d.
    assert (Hrej : state d = Cancelled \/ state d = TimedOut ->
                   collect_feedback E ws T events = Returns (PyList []))
      by apply (collect_feedback_rejected E ws T _ events Hd0).
    assert (Hsub : state d = Submitted ->
                   collect_feedback E ws T events
                   = Returns (PyList (flat_map (process_item E)
                                        (feedback_items E d))))
      by apply (collect_feedback_submitted E ws T _ events Hd0).
    split; [apply terminal_action_closes; reflexivity|].
    split; [|split; [exact Hrej|]].
    - intro Hst. destruct (state d) eqn:Hd; [congruence|eauto..].
    - intros Hst Htext Himgs. rewrite Hsub by exact Hst.
      unfold feedback_items, submit_text. rewrite Htext, Himgs.
      reflexivity. }
  split; [|split; [exact Hbig|exact Hsmall]].
  destruct (Z.le_gt_cases T 2147483) as [Hle|Hgt].
  - destruct (Hsmall Hle) as (d0 & Hd0 & _ & Hlist & _).
    destruct (state (exec_ E d0 events)) eqn:Hst.
    + unfold collect_feedback. rewrite Hd0.
      unfold show_dialog_pyside, result_code. rewrite Hst. discriminate.
    + destruct Hlist as [l ->]; discriminate.
    + destruct Hlist as [l ->]; discriminate.
    + destruct Hlist as [l ->]; discriminate.
  - rewrite (Hbig Hgt). discriminate.
Qed.

Lemma collect_feedback_returns_list_witness :
  collect_feedback demo_env [] 300 [User (EditText (cps "  ")); User Submit]
  = Returns (PyList []) /\
  collect_feedback demo_env [] 300 [User (EditText (cps "no")); User Cancel]
  = Returns (PyList []) /\
  collect_feedback demo_env [] 1 [Elapse 1000] = Returns (PyList []) /\
  collect_feedback demo_env [] 2147483 [User Cancel] = Returns (PyList []).
Proof.
  assert (Hfresh : forall ws T d0,
            FeedbackDialog_init ws T = Ok d0 -> d0 = initial_dialog ws T).
  { intros ws T d0 H. apply (FeedbackDialog_init_ok ws T d0 H). }
  split; [|split; [|split]].
  - destruct (collect_feedback_returns_list demo_env [] 300
                [User (EditText (cps "  ")); User Submit])
      as (_ & _ & Hsmall).
    destruct Hsmall as (d0 & Hd0 & _ & _ & _ & Hsub); [lia|].
    rewrite (Hfresh _ _ _ Hd0) in Hsub. apply Hsub; reflexivity.
  - destruct (collect_feedback_returns_list demo_env [] 300
                [User (EditText (cps "no")); User Cancel])
      as (_ & _ & Hsmall).
    destruct Hsmall as (d0 & Hd0 & _ & _ & Hrej & _); [lia|].
    rewrite (Hfresh _ _ _ Hd0) in Hrej. apply Hrej. left. reflexivity.
  - destruct (collect_feedback_returns_list demo_env [] 1 [Elapse 1000])
      as (_ & _ & Hsmall).
    destruct Hsmall as (d0 & Hd0 & _ & _ & Hrej & _); [lia|].
    rewrite (Hfresh _ _ _ Hd0) in Hrej. apply Hrej. right. reflexivity.
  - destruct (collect_feedback_returns_list demo_env [] 2147483 [User Cancel])
      as (_ & _ & Hsmall).
    destruct Hsmall as (d0 & Hd0 & _ & _ & Hrej & _); [lia|].
    rewrite (Hfresh _ _ _ Hd0) in Hrej. apply Hrej. left. reflexivity.
Defined.

(** ** Image items *)

Lemma submit_text_only_str (d : FeedbackDialog) (v : pyval) :
  In v (submit_text d) -> is_str v = true.
Proof.
  unfold submit_text. destruct (strip (text_widget d)); [intros []|].
  destruct (negb _); [|intros []].
  intros [<-|[]]. reflexivity.
Qed.

Lemma lower_cp_not_upper (c : N) : is_ascii_upper (lower_cp c) = false.
Proof.
  unfold lower_cp, is_ascii_upper.
  destruct (N.leb_spec 65 c); destruct (N.leb_spec c 90); cbn [andb].
  - apply andb_false_intro2. apply N.leb_gt. lia.
  - apply andb_false_intro2. apply N.leb_gt. lia.
  - apply andb_false_intro1. apply N.leb_gt. lia.
  - apply andb_false_intro1. apply N.leb_gt. lia.
Qed.

Lemma lower_no_upper (s : pystr) : existsb is_ascii_upper (lower s) = false.
Proof.
  induction s as [|c s IH]; [reflexivity|].
  cbn [lower List.map existsb]. rewrite lower_cp_not_upper. exact IH.
Qed.

Lemma lower_cp_idem (c : N) : lower_cp (lower_cp c) = lower_cp c.
Proof.
  pose proof (lower_cp_not_upper c) as H. unfold is_ascii_upper in H.
  unfold lower_cp at 1. rewrite H. reflexivity.
Qed.

Lemma lower_idem (s : pystr) : lower (lower s) = lower s.
Proof.
  unfold lower. rewrite List.map_map. apply List.map_ext.
  intro c. apply lower_cp_idem.
Qed.

Lemma lower_nonempty (s : pystr) : s <> [] -> lower s <> [].
Proof. destruct s; [congruence|discriminate]. Qed.

Lemma format_or_PNG_nonempty (p : PilImage) : format_or_PNG p <> [].
Proof.
  unfold format_or_PNG. destruct (pil_format p) as [[|c f]|]; discriminate.
Qed.

Lemma flat_map_filter_decodes (E : Env) (l : list SelectedImage) :
  flat_map (submit_image E) l
  = flat_map (submit_image E) (List.filter (decodes E) l).
Proof.
  induction l as [|img l IH]; [reflexivity|].
  cbn [flat_map List.filter]. unfold decodes at 1, submit_image at 1.
  destruct (Image_open E (img_data img)) eqn:Hopen.
  - cbn [flat_map]. unfold submit_image at 2. rewrite Hopen, IH. reflexivity.
  - exact IH.
Qed.

(** C7: provided the image library rejects an empty byte string, every
    image item of the list that [submit_feedback_pyside] emits comes from
    a selected image with non-empty bytes, carries their base64 encoding
    and a non-empty format label: the lower-cased format the library
    reports, or [png] when it reports none.  A selected image whose bytes
    the library cannot open contributes no item and no message box; the
    other images keep their items and their order, and the dialog ends
    [Submitted]. *)
Theorem submitted_images_invariant (E : Env) (d : FeedbackDialog) :
  (forall e, Image_open E [] <> Ok e) ->
  let items := feedback_items E d in
  (forall dct, In (PyDict dct) items ->
     exists img p,
       In img (selected_images_data d) /\
       Image_open E (img_data img) = Ok p /\
       img_data img <> [] /\
       d_base64_data dct = b64encode (img_data img) /\
       b64decode (d_base64_data dct) = Some (img_data img) /\
       d_format dct = lower (format_or_PNG p) /\
       d_format dct <> [] /\
       (pil_format p = None \/ pil_format p = Some [] ->
          d_format dct = cps "png") /\
       d_filename dct = img_filename img) /\
  items = submit_text d ++
            flat_map (submit_image E)
              (List.filter (decodes E) (selected_images_data d)) /\
  (forall img, decodes E img = false -> submit_image E img = []) /\
  (forall img, decodes E img = true ->
     exists dct, submit_image E img = [PyDict dct]) /\
  state (submit_feedback_pyside E d) = Submitted /\
  emitted (submit_feedback_pyside E d) = emitted d ++ [PyList items] /\
  notices (submit_feedback_pyside E d) = notices d.
Proof.
  intros Hempty items. split; [|split; [|split; [|split]]].
  - intros dct Hin. subst items. unfold feedback_items in Hin.
    apply in_app_or in Hin. destruct Hin as [Hin|Hin].
    { apply submit_text_only_str in Hin. discriminate. }
    apply in_flat_map in Hin. destruct Hin as (img & Himg & Hin).
    unfold submit_image in Hin.
    destruct (Image_open E (img_data img)) as [p|e] eqn:Hopen; [|destruct Hin].
    destruct Hin as [Hin|[]]. injection Hin as <-.
    exists img, p. cbn.
    split; [exact Himg|]. split; [exact Hopen|]. split.
    { intro Hnil. rewrite Hnil in Hopen. exact (Hempty p Hopen). }
    split; [reflexivity|]. split; [apply b64decode_b64encode|].
    split; [reflexivity|]. split.
    { apply lower_nonempty, format_or_PNG_nonempty. }
    split; [|reflexivity].
    unfold format_or_PNG. intros [-> | ->]; reflexivity.
  - subst items. unfold feedback_items.
    rewrite <- flat_map_filter_decodes. reflexivity.
  - intros img. unfold decodes, submit_image.
    destruct (Image_open E (img_data img)); [discriminate|reflexivity].
  - intros img. unfold decodes, submit_image.
    destruct (Image_open E (img_data img)); [eauto|discriminate].
  - repeat split.
Qed.

Lemma submitted_images_invariant_witness :
  let pic (b : bytes) (name : pystr) :=
    {| img_data := b; img_filename := name;
       img_pixmap := {| isNull := false |} |} in
  let d := with_images [pic shot_bytes (cps "a.png"); pic [] (cps "b.png");
                        pic notes_bytes (cps "c.png");
                        pic shot_bytes (cps "d.png")]
             (initial_dialog [] 300) in
  feedback_items demo_env d
  = submit_text d ++
      flat_map (submit_image demo_env)
        [pic shot_bytes (cps "a.png"); pic shot_bytes (cps "d.png")].
Proof.
  intros pic d.
  assert (Hempty : forall e, Image_open demo_env [] <> Ok e)
    by (intros e; discriminate).
  destruct (submitted_images_invariant demo_env d Hempty) as (_ & Hkept & _).
  exact Hkept.
Defined.

Lemma select_one_file (E : Env) (d : FeedbackDialog) (path : pystr)
  (B : bytes) :
  read_file E path = Ok B ->
  isNull (QPixmap_loadFromData E B) = false ->
  select_image_file_pyside E [path] d
  = with_images
      (selected_images_data d ++
         [{| img_data := B; img_filename := Path_name E path;
             img_pixmap := QPixmap_loadFromData E B |}]) d.
Proof.
  intros Hread Hpix. unfold select_image_file_pyside. cbn [fold_left].
  unfold add_image_file. rewrite Hread, Hpix. reflexivity.
Qed.

Lemma process_submit_text (E : Env) (d : FeedbackDialog) :
  flat_map (process_item E) (submit_text d) = submit_text d.
Proof.
  unfold submit_text. destruct (strip (text_widget d)); [reflexivity|].
  destruct (negb _); reflexivity.
Qed.

Lemma process_images_dropped (E : Env) (l : list SelectedImage) :
  (forall b f n, exists e, MCPImage_new E b f n = Raise e) ->
  flat_map (process_item E) (flat_map (submit_image E) l) = [].
Proof.
  intro Hraise. induction l as [|img l IH]; [reflexivity|].
  cbn [flat_map]. rewrite flat_map_app, IH, app_nil_r.
  unfold submit_image.
  destruct (Image_open E (img_data img)) as [p|e]; [|reflexivity].
  cbn.
  destruct (Hraise (b64encode (img_data img)) (lower (format_or_PNG p))
              (img_filename img)) as [e ->].
  reflexivity.
Qed.

Lemma submitted_dict (E : Env) (d : FeedbackDialog) (img : SelectedImage)
  (p : PilImage) :
  In img (selected_images_data d) ->
  Image_open E (img_data img) = Ok p ->
  In (PyDict {| d_type := cps "image";
                d_base64_data := b64encode (img_data img);
                d_format := lower (format_or_PNG p);
                d_filename := img_filename img |})
     (feedback_items E d).
Proof.
  intros Himg Hopen. unfold feedback_items. apply in_or_app. right.
  apply in_flat_map. exists img. split; [exact Himg|].
  unfold submit_image. rewrite Hopen. left. reflexivity.
Qed.

(** C4, as the code has it: when the call
    [MCPImage(base64_data=, format=, filename=)] raises, as it does with
    the imported class, [collect_feedback] returns no image record at all:
    after a submit it returns the text item, if any, and nothing else,
    whatever pictures were selected.  The dialog did its part: for every
    selected picture that the image library opens it emitted a dictionary
    whose payload decodes to the picture's bytes, with the lower-cased
    format and the stored file name; the item is lost in the [except]
    branch around the constructor. *)
Theorem collect_feedback_drops_images (E : Env) :
  (forall b f n, exists e, MCPImage_new E b f n = Raise e) ->
  forall ws T events,
    (forall items m,
       collect_feedback E ws T events = Returns (PyList items) ->
       ~ In (PyImage m) items) /\
    (forall d0,
       FeedbackDialog_init ws T = Ok d0 ->
       let d := exec_ E d0 events in
       state d = Submitted ->
       collect_feedback E ws T events = Returns (PyList (submit_text d)) /\
       forall img p,
         In img (selected_images_data d) ->
         Image_open E (img_data img) = Ok p ->
         exists dct,
           In (PyDict dct) (feedback_items E d) /\
           b64decode (d_base64_data dct) = Some (img_data img) /\
           d_format dct = lower (format_or_PNG p) /\
           d_filename dct = img_filename img).
Proof.
  intros Hraise ws T events.
  assert (Hsub : forall d0,
            FeedbackDialog_init ws T = Ok d0 ->
            state (exec_ E d0 events) = Submitted ->
            collect_feedback E ws T events
            = Returns (PyList (submit_text (exec_ E d0 events)))).
  { intros d0 Hd0 Hst.
    rewrite (collect_feedback_submitted E ws T d0 events Hd0 Hst).
    unfold feedback_items.
    rewrite flat_map_app, process_submit_text,
      (process_images_dropped E _ Hraise), app_nil_r.
    reflexivity. }
  split.
  - intros items m Hret Hin.
    destruct (FeedbackDialog_init ws T) as [d0|e] eqn:Hd0.
    2:{ unfold collect_feedback in Hret. rewrite Hd0 in Hret. discriminate. }
    destruct (state (exec_ E d0 events)) eqn:Hst.
    + unfold collect_feedback in Hret. rewrite Hd0 in Hret.
      unfold show_dialog_pyside, result_code in Hret. rewrite Hst in Hret.
      discriminate.
    + rewrite (Hsub d0 eq_refl Hst) in Hret. injection Hret as <-.
      apply submit_text_only_str in Hin. discriminate.
    + rewrite (collect_feedback_rejected E ws T d0 events Hd0) in Hret
        by (left; exact Hst).
      injection Hret as <-. destruct Hin.
    + rewrite (collect_feedback_rejected E ws T d0 events Hd0) in Hret
        by (right; exact Hst).
      injection Hret as <-. destruct Hin.
  - intros d0 Hd0 d Hst. split; [apply Hsub; assumption|].
    intros img p Himg Hopen. eexists.
    split; [apply (submitted_dict E d img p Himg Hopen)|].
    cbn. split; [apply b64decode_b64encode|]. split; reflexivity.
Qed.

Lemma collect_feedback_drops_images_witness :
  collect_feedback demo_env [] 300
    [User (SelectImageFiles [cps "/tmp/shot.png"]); User Submit]
  = Returns (PyList []).
Proof.
  assert (Hraise : forall b f n,
            exists e, MCPImage_new demo_env b f n = Raise e).
  { intros b f n. eexists. reflexivity. }
  destruct (collect_feedback_drops_images demo_env Hraise [] 300
              [User (SelectImageFiles [cps "/tmp/shot.png"]); User Submit])
    as [_ Hsub].
  destruct (Hsub (initial_dialog [] 300) eq_refl eq_refl) as [Hret _].
  exact Hret.
Defined.

(** ** pick_image *)

(** The one call that [pick_image_finish] ends in. *)
Lemma pick_image_finish_call (E : Env) (img_bytes : option bytes)
  (name img_format : pystr) :
  exists b f n,
    pick_image_finish E img_bytes name img_format = MCPImage_new E b f n /\
    ((b = [] /\ f = [] /\ n = cps "no_image_selected_or_error") \/
     (exists data,
        img_bytes = Some data /\ data <> [] /\
        b = b64encode data /\ f = lower img_format /\ n = name)).
Proof.
  destruct img_bytes as [[|x data]|]; cbn [pick_image_finish].
  - do 3 eexists. split; [reflexivity|]. left. auto.
  - do 3 eexists. split; [reflexivity|]. right.
    exists (x :: data). repeat split. discriminate.
  - do 3 eexists. split; [reflexivity|]. left. auto.
Qed.

(** C5, as the code has it: every path of [pick_image] ends in one call
    [MCPImage(base64_data=, format=, filename=)], made outside any [try],
    with the arguments the claim describes: an empty payload, an empty
    format and one of the diagnostic tags, or the base64 of a non-empty
    image.  So [pick_image] returns what that call returns and raises what
    it raises: with the imported class, whose constructor rejects these
    keywords, [pick_image] raises on every input, the cancel included. *)
Theorem pick_image_raises (E : Env) (clicked : option Button)
  (file_path : pystr) (clipboard : Clipboard) (now : datetime) :
  (exists b f n,
     pick_image E clicked file_path clipboard now = MCPImage_new E b f n /\
     ((b = [] /\ f = [] /\ In n sentinel_tags) \/
      (b <> [] /\
       exists data, data <> [] /\ b64decode b = Some data))) /\
  (clicked = Some cancel_button ->
   pick_image E clicked file_path clipboard now
   = MCPImage_new E [] [] (cps "cancelled_by_user")) /\
  ((forall b f n, exists e, MCPImage_new E b f n = Raise e) ->
   exists e, pick_image E clicked file_path clipboard now = Raise e).
Proof.
  assert (Hcall :
            exists b f n,
              pick_image E clicked file_path clipboard now
              = MCPImage_new E b f n /\
              ((b = [] /\ f = [] /\ In n sentinel_tags) \/
               (b <> [] /\
                exists data, data <> [] /\ b64decode b = Some data))).
  { assert (Hfin : forall img_bytes name fmt,
              exists b f n,
                pick_image_finish E img_bytes name fmt = MCPImage_new E b f n /\
                ((b = [] /\ f = [] /\ In n sentinel_tags) \/
                 (b <> [] /\
                  exists data, data <> [] /\ b64decode b = Some data))).
    { intros img_bytes name fmt.
      destruct (pick_image_finish_call E img_bytes name fmt)
        as (b & f & n & Hcall & Hcase).
      exists b, f, n. split; [exact Hcall|].
      destruct Hcase as [(-> & -> & ->)|(data & _ & Hne & -> & _ & _)].
      - left. split; [reflexivity|]. split; [reflexivity|].
        cbn. auto.
      - right. split; [apply b64encode_nonempty; exact Hne|].
        exists data. split; [exact Hne|apply b64decode_b64encode]. }
    unfold pick_image. destruct clicked as [[| |]|].
    - destruct file_path as [|c path]; [apply Hfin|].
      destruct (read_file E (c :: path)) as [b|e]; cbn [bind].
      2:{ do 3 eexists. split; [reflexivity|]. left.
          split; [reflexivity|]. split; [reflexivity|]. cbn. auto. }
      destruct (Image_open E b) as [p|e]; cbn [bind]; [apply Hfin|].
      do 3 eexists. split; [reflexivity|]. left.
      split; [reflexivity|]. split; [reflexivity|]. cbn. auto.
    - destruct (hasImage clipboard); [|apply Hfin].
      destruct (negb _); apply Hfin.
    - do 3 eexists. split; [reflexivity|]. left.
      split; [reflexivity|]. split; [reflexivity|]. cbn. auto.
    - apply Hfin. }
  split; [exact Hcall|]. split.
  - intros ->. reflexivity.
  - intro Hraise. destruct Hcall as (b & f & n & -> & _).
    apply Hraise.
Qed.

Lemma pick_image_raises_witness :
  exists e,
    pick_image demo_env (Some cancel_button) [] empty_clipboard demo_now
    = Raise e.
Proof.
  destruct (pick_image_raises demo_env (Some cancel_button) []
              empty_clipboard demo_now) as (_ & _ & Hraises).
  apply Hraises. intros b f n. eexists. reflexivity.
Defined.

(** ** get_image_info *)







(** * More of the dialog *)

(** ** Typing *)

Lemma add_image_file_text (E : Env) (d : FeedbackDialog) (p : pystr) :
  text_widget (add_image_file E d p) = text_widget d.
Proof.
  unfold add_image_file. destruct (read_file E p); [|reflexivity].
  destruct (negb _); reflexivity.
Qed.

Lemma select_image_file_pyside_text (E : Env) (paths : list pystr)
  (d : FeedbackDialog) :
  text_widget (select_image_file_pyside E paths d) = text_widget d.
Proof.
  unfold select_image_file_pyside. revert d.
  induction paths as [|p paths IH]; intro d; [reflexivity|].
  simpl. rewrite IH. apply add_image_file_text.
Qed.

Lemma step_text (E : Env) (d : FeedbackDialog) (ev : event) :
  text_widget (step E d ev)
  = match ev with
    | User (EditText content) => content
    | _ => text_widget d
    end.
Proof.
  destruct ev as [a|ms]; cbn [step].
  - destruct a; cbn [act]; try reflexivity.
    + apply select_image_file_pyside_text.
    + unfold paste_from_clipboard_pyside.
      destruct (hasImage clipboard); [|reflexivity].
      destruct (negb _); reflexivity.
    + unfold clear_all_images_pyside.
      destruct (selected_images_data d); [reflexivity|].
      destruct reply; reflexivity.
    + unfold remove_image_pyside. destruct (_ && _)%bool; reflexivity.
  - unfold tick. destruct (timeout_timer d); [|reflexivity].
    destruct (_ && _)%bool; reflexivity.
Qed.

Lemma exec_text (E : Env) (events : list event) :
  forall d : FeedbackDialog,
    state (exec_ E d events) = Open ->
    text_widget (exec_ E d events)
    = fold_left (fun acc ev =>
                   match ev with
                   | User (EditText content) => content
                   | _ => acc
                   end) events (text_widget d).
Proof.
  induction events as [|ev events IH]; intros d Hopen; [reflexivity|].
  rewrite exec_cons in *.
  destruct (state (step E d ev)) eqn:Hs; try congruence.
  rewrite IH by exact Hopen. cbn [fold_left].
  rewrite step_text. reflexivity.
Qed.

(** X3: while the dialog is open its text is what the user typed last,
    whatever was done to the pictures in between; a submit then returns the
    stripped last text first, unless it is empty or the placeholder. *)
Theorem submitted_text_is_last_edit (E : Env) (ws : pystr) (T : Z)
  (d0 : FeedbackDialog) (events : list event) :
  FeedbackDialog_init ws T = Ok d0 ->
  state (exec_ E d0 events) = Open ->
  text_widget (exec_ E d0 events) = last_edit events /\
  (strip (last_edit events) <> [] ->
   strip (last_edit events) <> placeholderText ->
   exists rest,
     collect_feedback E ws T (events ++ [User Submit])
     = Returns (PyList (PyStr (strip (last_edit events)) :: rest))).
Proof.
  intros Hd0 Hopen.
  assert (Htext : text_widget (exec_ E d0 events) = last_edit events).
  { rewrite exec_text by exact Hopen.
    destruct (FeedbackDialog_init_ok ws T d0 Hd0) as [-> _]. reflexivity. }
  split; [exact Htext|].
  intros Hne Hph.
  set (d := exec_ E d0 events) in *.
  exists (flat_map (process_item E)
            (flat_map (submit_image E) (selected_images_data d))).
  rewrite (collect_feedback_submitted E ws T d0) by
    (try exact Hd0; rewrite exec_submit by exact Hopen; reflexivity).
  rewrite exec_submit by exact Hopen.
  rewrite feedback_items_submit. fold d. unfold feedback_items.
  destruct (submit_text_cases d) as [Hsome _].
  rewrite Htext in Hsome. rewrite Hsome by assumption. reflexivity.
Qed.

Lemma submitted_text_is_last_edit_witness :
  exists rest,
    collect_feedback demo_env [] 300
      ([User (EditText (cps "first"));
        User (SelectImageFiles [cps "/tmp/shot.png"]);
        User (EditText (cps " second thoughts "));
        User (RemoveImage 0)] ++ [User Submit])
    = Returns (PyList (PyStr (cps "second thoughts") :: rest)).
Proof.
  destruct (submitted_text_is_last_edit demo_env [] 300
              (initial_dialog [] 300)
              [User (EditText (cps "first"));
               User (SelectImageFiles [cps "/tmp/shot.png"]);
               User (EditText (cps " second thoughts "));
               User (RemoveImage 0)]) as [_ Hsub]; [reflexivity..|].
  apply Hsub; discriminate.
Defined.

(** ** The image list: adding in batches, the preview, undoing *)

Lemma add_image_file_cases (E : Env) (d : FeedbackDialog) (p : pystr) :
  selected_images_data (add_image_file E d p)
  = selected_images_data d ++ accepted E p /\
  notices (add_image_file E d p) = notices d ++ rejection E p.
Proof.
  unfold add_image_file, accepted, rejection.
  destruct (read_file E p) as [b|e].
  - destruct (isNull (QPixmap_loadFromData E b)); cbn; split;
      rewrite ?app_nil_r; reflexivity.
  - cbn. rewrite app_nil_r. split; reflexivity.
Qed.

Lemma accepted_or_rejected (E : Env) (p : pystr) :
  (length (accepted E p) + length (rejection E p) = 1)%nat.
Proof.
  unfold accepted, rejection. destruct (read_file E p) as [b|e];
    [|reflexivity].
  destruct (isNull (QPixmap_loadFromData E b)); reflexivity.
Qed.

(** X4: [select_image_file_pyside] with several paths keeps the pictures
    already selected, in front and untouched; after them come, in the order
    of the paths, the files that could be read and loaded as a pixmap;
    every other path gets exactly one message box, a warning when the bytes
    do not load and an error when reading raises, and does not stop the
    paths after it. *)
Theorem select_image_file_pyside_batch (E : Env) (file_paths : list pystr)
  (d : FeedbackDialog) :
  let d' := select_image_file_pyside E file_paths d in
  selected_images_data d'
  = selected_images_data d ++ flat_map (accepted E) file_paths /\
  notices d' = notices d ++ flat_map (rejection E) file_paths /\
  (length (selected_images_data d') - length (selected_images_data d)
   + (length (notices d') - length (notices d)) = length file_paths)%nat /\
  text_widget d' = text_widget d /\ state d' = state d.
Proof.
  intro d'. subst d'.
  assert (H : forall d,
             selected_images_data (select_image_file_pyside E file_paths d)
             = selected_images_data d ++ flat_map (accepted E) file_paths /\
             notices (select_image_file_pyside E file_paths d)
             = notices d ++ flat_map (rejection E) file_paths).
  { unfold select_image_file_pyside.
    induction file_paths as [|p paths IH]; intro d0.
    - cbn. rewrite !app_nil_r. split; reflexivity.
    - cbn [fold_left flat_map].
      destruct (IH (add_image_file E d0 p)) as [Himg Hnot].
      destruct (add_image_file_cases E d0 p) as [Himg1 Hnot1].
      rewrite Himg, Hnot, Himg1, Hnot1, <- !app_assoc. split; reflexivity. }
  destruct (H d) as [Himg Hnot].
  split; [exact Himg|]. split; [exact Hnot|]. split.
  - rewrite Himg, Hnot, !length_app.
    assert (Hcount : (length (flat_map (accepted E) file_paths)
                      + length (flat_map (rejection E) file_paths)
                      = length file_paths)%nat).
    { clear. induction file_paths as [|p paths IH]; [reflexivity|].
      cbn [flat_map]. rewrite !length_app.
      pose proof (accepted_or_rejected E p). cbn [length]. lia. }
    lia.
  - split; [apply select_image_file_pyside_text|].
    apply select_image_file_pyside_frame.
Qed.

Lemma preview_items_lookup (E : Env) (l : list SelectedImage) :
  forall (index : Z) (k : nat),
    preview_items E index l !! k
    = (fun img => item_widget (img_pixmap img)
                    (short_filename (Path_name E (img_filename img)))
                    (index + Z.of_nat k)%Z) <$> (l !! k).
Proof.
  induction l as [|img l IH]; intros index k; [reflexivity|].
  destruct k as [|k]; cbn.
  - rewrite Z.add_0_r. reflexivity.
  - rewrite IH. destruct (l !! k); cbn; [|reflexivity].
    do 2 f_equal. lia.
Qed.

Lemma preview_items_length (E : Env) (l : list SelectedImage) (index : Z) :
  length (preview_items E index l) = length l.
Proof.
  revert index. induction l as [|img l IH]; intro index; [reflexivity|].
  cbn. rewrite IH. reflexivity.
Qed.

(** X6: the preview that [update_image_preview_pyside] builds shows a
    single placeholder label when no picture is selected, and otherwise one
    item per picture, in order; the remove button of the item at position
    [k] is bound to index [k], so pressing it removes exactly the picture
    shown there and no other. *)
Theorem update_image_preview_pyside_spec (E : Env) (d : FeedbackDialog) :
  let l := selected_images_data d in
  let preview := update_image_preview_pyside E d in
  (l = [] -> preview = [placeholder_label]) /\
  (l <> [] ->
     length preview = length l /\
     forall (k : nat) (w : preview_widget),
       preview !! k = Some w ->
       exists img,
         l !! k = Some img /\
         w = item_widget (img_pixmap img)
               (short_filename (Path_name E (img_filename img)))
               (Z.of_nat k) /\
         selected_images_data (press_remove w d) = delete k l).
Proof.
  intros l preview. subst preview. unfold update_image_preview_pyside.
  fold l. split.
  - intros ->. reflexivity.
  - intro Hne. destruct l as [|x l'] eqn:Hl; [congruence|].
    rewrite <- Hl. split; [apply preview_items_length|].
    intros k w Hw. rewrite preview_items_lookup in Hw.
    destruct (l !! k) as [img|] eqn:Hk; [|discriminate].
    cbn in Hw. injection Hw as <-. rewrite Z.add_0_l.
    exists img. split; [reflexivity|]. split; [reflexivity|].
    cbn [press_remove]. unfold remove_image_pyside.
    assert (Hlt : (k < length l)%nat) by (eapply lookup_lt_Some; exact Hk).
    replace (selected_images_data d) with l by (subst l; reflexivity).
    assert (Hguard : ((0 <=? Z.of_nat k)%Z
                      && (Z.of_nat k <? Z.of_nat (length l))%Z) = true).
    { apply andb_true_intro.
      split; [apply Z.leb_le|apply Z.ltb_lt]; lia. }
    rewrite Hguard, with_images_images, Nat2Z.id. reflexivity.
Qed.

Lemma update_image_preview_pyside_spec_witness :
  let pic (n : byte) (name : pystr) :=
    {| img_data := [n]; img_filename := name;
       img_pixmap := {| isNull := false |} |} in
  let d := with_images [pic x01 (cps "a.png"); pic x02 (cps "b.png")]
             (initial_dialog [] 300) in
  length (update_image_preview_pyside demo_env d) = 2%nat /\
  update_image_preview_pyside demo_env (initial_dialog [] 300)
  = [placeholder_label].
Proof.
  intros pic d. split.
  - destruct (update_image_preview_pyside_spec demo_env d) as [_ Hsome].
    destruct Hsome as [Hlen _]; [discriminate|exact Hlen].
  - destruct (update_image_preview_pyside_spec demo_env
                (initial_dialog [] 300)) as [Hnone _].
    apply Hnone. reflexivity.
Defined.

(** X7: the label under a preview picture is the file name itself when it
    has fewer than 20 characters; a longer name is cut to its first 17
    characters followed by three dots, so a label never has more than 20
    characters. *)
Theorem short_filename_spec (name : pystr) :
  (length (short_filename name) <= 20)%nat /\
  ((length name < 20)%nat -> short_filename name = name) /\
  ((20 <= length name)%nat ->
     short_filename name = take 17 name ++ cps "..." /\
     length (short_filename name) = 20%nat).
Proof.
  unfold short_filename.
  destruct (Nat.ltb_spec (length name) 20) as [Hlt|Hge].
  - split; [lia|]. split; [reflexivity|]. lia.
  - assert (Hlen : length (take 17 name ++ cps "...") = 20%nat).
    { rewrite length_app, length_take.
      change (length (cps "...")) with 3%nat. lia. }
    split; [lia|]. split; [lia|]. intros _. split; [reflexivity|exact Hlen].
Qed.

Lemma short_filename_spec_witness :
  short_filename (cps "shot.png") = cps "shot.png" /\
  short_filename (cps "screenshot_of_the_whole_desktop.png")
  = cps "screenshot_of_the...".
Proof.
  split.
  - destruct (short_filename_spec (cps "shot.png")) as (_ & Hshort & _).
    apply Hshort. simpl. lia.
  - destruct (short_filename_spec
                (cps "screenshot_of_the_whole_desktop.png"))
      as (_ & _ & Hlong).
    destruct Hlong as [Heq _]; [simpl; lia|rewrite Heq; reflexivity].
Defined.

(** X8: adding one picture and then removing the last position gives the
    list back as it was, for a picture from a file and for one from the
    clipboard. *)
Theorem add_then_remove_last (E : Env) (d : FeedbackDialog) :
  let last := Z.of_nat (length (selected_images_data d)) in
  (forall path B,
     read_file E path = Ok B ->
     isNull (QPixmap_loadFromData E B) = false ->
     selected_images_data
       (remove_image_pyside last (select_image_file_pyside E [path] d))
     = selected_images_data d) /\
  (forall clipboard now,
     hasImage clipboard = true ->
     qimage_isNull (image clipboard) = false ->
     selected_images_data
       (remove_image_pyside last
          (paste_from_clipboard_pyside clipboard now d))
     = selected_images_data d).
Proof.
  intro last.
  assert (Hdel : forall (x : SelectedImage) d',
            selected_images_data d' = selected_images_data d ++ [x] ->
            selected_images_data (remove_image_pyside last d')
            = selected_images_data d).
  { intros x d' Hd'. unfold remove_image_pyside. rewrite Hd'.
    assert (Hguard :
              ((0 <=? last)%Z
               && (last <? Z.of_nat (length (selected_images_data d ++ [x])))%Z)
              = true).
    { rewrite length_app. cbn [length]. subst last. apply andb_true_intro.
      split; [apply Z.leb_le|apply Z.ltb_lt]; lia. }
    rewrite Hguard, with_images_images. subst last. rewrite Nat2Z.id.
    rewrite (delete_middle (selected_images_data d) [] x).
    apply app_nil_r. }
  split.
  - intros path B Hread Hpix. eapply Hdel.
    rewrite (select_one_file E d path B Hread Hpix). reflexivity.
  - intros clipboard now Hhas Hnull. eapply Hdel.
    unfold paste_from_clipboard_pyside. rewrite Hhas, Hnull.
    reflexivity.
Qed.

Lemma add_then_remove_last_witness :
  let d := initial_dialog [] 300 in
  selected_images_data
    (remove_image_pyside 0
       (select_image_file_pyside demo_env [cps "/tmp/shot.png"] d))
  = [] /\
  selected_images_data
    (remove_image_pyside 0
       (paste_from_clipboard_pyside demo_clipboard demo_now d))
  = [].
Proof.
  intro d. destruct (add_then_remove_last demo_env d) as [Hfile Hclip].
  split.
  - apply (Hfile (cps "/tmp/shot.png") shot_bytes); reflexivity.
  - apply (Hclip demo_clipboard demo_now); reflexivity.
Defined.

(** ** The submitted text *)

Lemma lstrip_head (s : pystr) (c : N) (r : pystr) :
  lstrip s = c :: r -> is_space c = false.
Proof.
  induction s as [|x s IH]; [discriminate|].
  cbn [lstrip]. destruct (is_space x) eqn:Hx; [exact IH|].
  intros [= <- _]. exact Hx.
Qed.

Lemma lstrip_suffix (s : pystr) : exists pre, s = pre ++ lstrip s.
Proof.
  induction s as [|x s [pre IH]]; [exists []; reflexivity|].
  cbn [lstrip]. destruct (is_space x).
  - exists (x :: pre). cbn. f_equal. exact IH.
  - exists []. reflexivity.
Qed.

Lemma lstrip_spaces (s : pystr) : forallb is_space s = true -> lstrip s = [].
Proof.
  induction s as [|x s IH]; [reflexivity|].
  cbn [forallb lstrip]. intro H. apply andb_prop in H.
  destruct H as [-> H]. apply IH, H.
Qed.

Lemma lstrip_id (s : pystr) :
  (forall c r, s = c :: r -> is_space c = false) -> lstrip s = s.
Proof.
  destruct s as [|x s]; [reflexivity|]. intro H.
  cbn [lstrip]. rewrite (H x s eq_refl). reflexivity.
Qed.

Lemma rstrip_prefix (s : pystr) : exists suf, s = rstrip s ++ suf.
Proof.
  unfold rstrip. destruct (lstrip_suffix (rev s)) as [pre H].
  exists (rev pre). rewrite <- rev_app_distr, <- H, rev_involutive.
  reflexivity.
Qed.

Lemma rstrip_last (s r : pystr) (c : N) :
  rstrip s = r ++ [c] -> is_space c = false.
Proof.
  unfold rstrip. intro H. apply (f_equal (@rev N)) in H.
  rewrite rev_involutive, rev_app_distr in H. cbn in H.
  eapply lstrip_head. exact H.
Qed.

Lemma strip_head (s : pystr) (c : N) (r : pystr) :
  strip s = c :: r -> is_space c = false.
Proof.
  unfold strip. intro H.
  destruct (rstrip_prefix (lstrip s)) as [suf Hsuf].
  rewrite H in Hsuf. cbn in Hsuf. eapply lstrip_head. exact Hsuf.
Qed.

Lemma strip_last (s r : pystr) (c : N) :
  strip s = r ++ [c] -> is_space c = false.
Proof. unfold strip. apply rstrip_last. Qed.

Lemma strip_idem (s : pystr) : strip (strip s) = strip s.
Proof.
  set (t := strip s).
  assert (Hl : lstrip t = t).
  { apply lstrip_id. intros c r H. apply (strip_head s c r). exact H. }
  unfold strip at 1. rewrite Hl. unfold rstrip.
  assert (Hr : lstrip (rev t) = rev t).
  { apply lstrip_id. intros c r H. apply (strip_last s (rev r) c).
    fold t. apply (f_equal (@rev N)) in H.
    rewrite rev_involutive in H. exact H. }
  rewrite Hr. apply rev_involutive.
Qed.

(** X9: a text item that [submit_feedback_pyside] emits is the stripped
    text of the text field; it is not empty, not the placeholder, neither
    starts nor ends with a white-space character, and stripping it again
    changes nothing.  A text field that holds white space only gives no
    text item. *)
Theorem submitted_text_is_stripped (E : Env) (d : FeedbackDialog) :
  (forall t, In (PyStr t) (feedback_items E d) ->
     t = strip (text_widget d) /\ t <> [] /\ t <> placeholderText /\
     (forall c r, t = c :: r -> is_space c = false) /\
     (forall r c, t = r ++ [c] -> is_space c = false) /\
     strip t = t) /\
  (forallb is_space (text_widget d) = true ->
     List.filter is_str (feedback_items E d) = []).
Proof.
  split.
  - intros t Hin. unfold feedback_items in Hin.
    apply in_app_or in Hin. destruct Hin as [Hin|Hin].
    + unfold submit_text in Hin.
      destruct (strip (text_widget d)) as [|c0 r0] eqn:Hs; [destruct Hin|].
      unfold pystr_eqb in Hin.
      destruct (bool_decide _) eqn:Hph in Hin;
        simpl in Hin; [destruct Hin|].
      destruct Hin as [[= <-]|[]].
      split; [reflexivity|]. split; [discriminate|]. split.
      { intro Heq. rewrite bool_decide_eq_true_2 in Hph by exact Heq.
        discriminate. }
      split.
      { intros c r Heq. apply (strip_head (text_widget d) c r).
        rewrite Hs. exact Heq. }
      split.
      { intros r c Heq. apply (strip_last (text_widget d) r c).
        rewrite Hs. exact Heq. }
      rewrite <- Hs. apply strip_idem.
    + exfalso. apply in_flat_map in Hin. destruct Hin as (img & _ & Hin).
      unfold submit_image in Hin.
      destruct (Image_open E (img_data img)); [|destruct Hin].
      destruct Hin as [Hin|[]]. discriminate.
  - intro Hws. unfold feedback_items, submit_text, strip.
    rewrite (lstrip_spaces _ Hws). cbn [rstrip rev lstrip app].
    apply submit_image_no_str.
Qed.

Lemma submitted_text_is_stripped_witness :
  List.filter is_str
    (feedback_items demo_env
       (with_text [32; 9; 10; 12288] (initial_dialog [] 300))) = [].
Proof.
  destruct (submitted_text_is_stripped demo_env
              (with_text [32; 9; 10; 12288] (initial_dialog [] 300)))
    as [_ Hws].
  apply Hws. reflexivity.
Defined.

(** ** The beginning of the string of get_image_info *)



(** ** Clipboard file names *)

Lemma strftime_injective (t1 t2 : datetime) :
  datetime_ok t1 -> datetime_ok t2 ->
  strftime t1 = strftime t2 -> t1 = t2.
Proof.
  intros H1 H2 Heq.
  destruct (strftime_fields t1 H1) as (A1 & A2 & A3 & A4 & A5 & A6).
  destruct (strftime_fields t2 H2) as (B1 & B2 & B3 & B4 & B5 & B6).
  rewrite Heq in A1, A2, A3, A4, A5, A6.
  destruct t1, t2. cbn in *. congruence.
Qed.

(** X13: two clipboard pictures pasted one after the other are both
    appended, and for valid times their generated file names are equal
    exactly when the two pastes happen at the same date and second: the
    name is made from the time alone and nothing keeps two pictures of
    the same second apart. *)
Theorem paste_twice_filenames (c1 c2 : Clipboard) (t1 t2 : datetime)
  (d : FeedbackDialog) :
  hasImage c1 = true -> qimage_isNull (image c1) = false ->
  hasImage c2 = true -> qimage_isNull (image c2) = false ->
  datetime_ok t1 -> datetime_ok t2 ->
  exists e1 e2,
    selected_images_data
      (paste_from_clipboard_pyside c2 t2 (paste_from_clipboard_pyside c1 t1 d))
    = selected_images_data d ++ [e1; e2] /\
    img_data e1 = save_PNG (image c1) /\
    img_data e2 = save_PNG (image c2) /\
    (img_filename e1 = img_filename e2 <-> t1 = t2).
Proof.
  intros Hh1 Hn1 Hh2 Hn2 Ht1 Ht2.
  unfold paste_from_clipboard_pyside.
  rewrite Hh1, Hn1, Hh2, Hn2. cbn [negb].
  exists {| img_data := save_PNG (image c1);
            img_filename := cps "clipboard_image_" ++ strftime t1
                              ++ cps ".png";
            img_pixmap := to_pixmap (image c1) |},
    {| img_data := save_PNG (image c2);
       img_filename := cps "clipboard_image_" ++ strftime t2 ++ cps ".png";
       img_pixmap := to_pixmap (image c2) |}.
  split.
  { cbn [selected_images_data with_images]. rewrite <- app_assoc.
    reflexivity. }
  cbn [img_data img_filename].
  split; [reflexivity|]. split; [reflexivity|]. split.
  - intro Heq. apply strftime_injective; try assumption.
    apply app_inv_head in Heq. apply app_inv_tail in Heq. exact Heq.
  - intros ->. reflexivity.
Qed.

Lemma paste_twice_filenames_witness :
  exists e1 e2,
    selected_images_data
      (paste_from_clipboard_pyside demo_clipboard demo_now
         (paste_from_clipboard_pyside demo_clipboard demo_now
            (initial_dialog [] 300)))
    = [] ++ [e1; e2] /\
    img_data e1 = shot_bytes /\ img_data e2 = shot_bytes /\
    (img_filename e1 = img_filename e2 <-> demo_now = demo_now).
Proof.
  apply (paste_twice_filenames demo_clipboard demo_clipboard
           demo_now demo_now (initial_dialog [] 300));
    try reflexivity; unfold datetime_ok; cbn; lia.
Defined.

(** ** The placement of the window *)

(** X16: [center_dialog] puts the window in the middle of the screen up to
    one pixel: the space left of it is the space right of it, or one pixel
    less, and likewise above and below.  It does not clamp: on a screen
    smaller than the window the position is negative. *)
Theorem center_dialog_spec (screen_width screen_height width height : Z) :
  let x := fst (center_dialog screen_width screen_height width height) in
  let y := snd (center_dialog screen_width screen_height width height) in
  (0 <= (screen_width - width - x) - x <= 1)%Z /\
  (0 <= (screen_height - height - y) - y <= 1)%Z /\
  (x < 0 <-> screen_width < width)%Z /\
  (y < 0 <-> screen_height < height)%Z.
Proof.
  cbn [center_dialog fst snd].
  repeat split; intros; Z.to_euclidean_division_equations; lia.
Qed.

